(** * mailmodel: model registry and training-set builder

  A shallow embedding of the registry and CSV-to-JSONL code of
  [admin_app.py] and [public_app_v0.py], with the properties the
  specification states about them.

  Conventions.
  - A Python [str] is a [string]; a character is a code point below 256.
    Whitespace and lower-casing follow [str.isspace] and [str.lower] on
    that range.
  - A Python dict used as a map is a [gmap]; the iteration order of a dict
    is not observable in any of the results below.
  - A function that can raise returns an [outcome].
  - The registry file and the JSONL file are explicit state. *)

From Stdlib Require Import Ascii String.
From stdpp Require Import gmap strings list fin_maps sorting pretty.

Set Warnings "-register-all".

(** String concatenation unfolds on a constructor, as list append does. *)
#[global] Arguments String.append !_ _ / : simpl nomatch.

(* ===================================================================== *)
(** * 1. Python strings                                                   *)
(* ===================================================================== *)

Module PyStr.

(** [str.isspace] on one code point below 256: TAB..CR, FS..US, SPACE,
    NEL (0x85) and NBSP (0xA0). *)
Definition is_space (c : ascii) : bool :=
  let n := nat_of_ascii c in
  (((9 <=? n) && (n <=? 13)) || ((28 <=? n) && (n <=? 32))
   || (n =? 133) || (n =? 160))%nat.

(** [str.lower] on one code point below 256: A..Z and the Latin-1 capitals
    0xC0..0xDE (except the multiplication sign 0xD7) move up by 32. *)
Definition lower_char (c : ascii) : ascii :=
  let n := nat_of_ascii c in
  if (((65 <=? n) && (n <=? 90))
      || ((192 <=? n) && (n <=? 222) && negb (n =? 215)))%nat
  then ascii_of_nat (n + 32) else c.

(** [s.lower()] *)
Fixpoint lower (s : string) : string :=
  match s with
  | EmptyString => EmptyString
  | String c r => String (lower_char c) (lower r)
  end.

(** [s.lstrip()] *)
Fixpoint lstrip (s : string) : string :=
  match s with
  | EmptyString => EmptyString
  | String c r => if is_space c then lstrip r else s
  end.

(** [s.rstrip()] *)
Fixpoint rstrip (s : string) : string :=
  match s with
  | EmptyString => EmptyString
  | String c r =>
      match rstrip r with
      | EmptyString => if is_space c then EmptyString else String c EmptyString
      | r' => String c r'
      end
  end.

(** [s.strip()] *)
Definition strip (s : string) : string := rstrip (lstrip s).

(** [s.split()]: the maximal runs of non-whitespace characters, in order.
    [tok] is the run being read. *)
Fixpoint split_from (tok : string) (s : string) : list string :=
  match s with
  | EmptyString => if String.eqb tok "" then [] else [tok]
  | String c r =>
      if is_space c
      then (if String.eqb tok "" then split_from "" r
            else tok :: split_from "" r)
      else split_from (tok +:+ String c "") r
  end.

Definition split (s : string) : list string := split_from "" s.

(** [s.endswith(suf)] *)
Fixpoint endswith (s suf : string) : bool :=
  if String.eqb s suf then true
  else match s with
       | EmptyString => false
       | String _ r => endswith r suf
       end.

(** Truth value of a string in a condition: non-empty. *)
Definition truthy (s : string) : bool := negb (String.eqb s "").

(** [a <= b] on strings: lexicographic on code points. *)
Definition le (a b : string) : Prop := String.leb a b = true.

#[export] Instance le_dec a b : Decision (le a b).
Proof. unfold le. apply _. Defined.

(** [sorted(xs)] for a list of strings. *)
Definition sorted (xs : list string) : list string := merge_sort le xs.

(** A string without whitespace characters. *)
Fixpoint no_space (s : string) : bool :=
  match s with
  | EmptyString => true
  | String c r => negb (is_space c) && no_space r
  end.

End PyStr.

(** Python exceptions that the modelled code can raise. *)
Inductive exn : Type := AttributeError | KeyError | IndexError.

(** Result of running a piece of code that may raise. *)
Inductive outcome (A : Type) : Type :=
| Returned (a : A)
| Raised (e : exn).
Arguments Returned {A} a.
Arguments Raised {A} e.

Definition obind {A B} (o : outcome A) (k : A → outcome B) : outcome B :=
match o with
| Returned a => k a
| Raised e => Raised e
end.

Notation "'let!' x ':=' o 'in' k" := (obind o (fun x => k))
(at level 10, x name, o at level 100, k at level 200).

(* ===================================================================== *)
(** * 2. JSON values and the registry file                                *)
(* ===================================================================== *)

(** What [json.load] returns. An object is a dict, here a finite map; a
    number is kept as an integer, the code never computes with one. *)
Inductive json : Type :=
| JNull
| JBool (b : bool)
| JNum (z : Z)
| JStr (s : string)
| JArr (l : list json)
| JObj (m : gmap string json).

(** One registry entry, the dict [{"id": ..., "public": ...}]. *)
Abbreviation entry := (gmap string json) (only parsing).
(** alias -> entry *)
Abbreviation models := (gmap string (gmap string json)) (only parsing).

Module Registry.

(** The dict literal [{"id": id, "public": public}]. *)
Definition mk_entry (id : string) (public : bool) : entry :=
  <["id" := JStr id]> (<["public" := JBool public]> ∅).

Definition PRE_CREATED_MODELS : models :=
  <["model_AlSpfqGn" :=
      mk_entry "ft:gpt-3.5-turbo-0125:personal::AlSpfqGn" true]>
  (<["model_AlTffoN4" :=
      mk_entry "ft:gpt-3.5-turbo-0125:personal::AlTffoN4" false]>
  (<["model_AlTewxyb" :=
      mk_entry "ft:gpt-3.5-turbo-0125:personal::AlTewxyb" true]> ∅)).

(** [my_saved_models.json]: missing, present but unreadable or not JSON
    ([open] or [json.load] raises), or holding a JSON value. *)
Inductive file : Type :=
  | NoFile
  | BadFile
  | JsonFile (data : json).

(** The file together with whether [open(..., "w")] succeeds. *)
Record disk : Type := Disk { content : file; writable : bool }.

(** Messages shown with [st.warning], [st.error], [st.success]. *)
Inductive notice : Type :=
  | WarnCouldNotRead
  | ErrorSaving
  | SuccessAllSaved
  | SuccessAdded (alias : string)
  | WarnProvideBoth.

(** Body of the loop of [load_saved_models] (admin) for one value:
    [None] when nothing is stored under the alias. *)
Definition convert (val : json) : option entry :=
  match val with
  | JStr s => Some (mk_entry s true)
  | JObj d =>
      match d !! "id" with
      | None => None
      | Some _ =>
          match d !! "public" with
          | None => Some (<["public" := JBool true]> d)
          | Some _ => Some d
          end
      end
  | _ => None
  end.

(** [load_saved_models] of [admin_app.py]: the mapping and the warnings. *)
Definition load_saved_models (d : disk) : models * list notice :=
  match content d with
  | NoFile => (∅, [])
  | BadFile => (∅, [WarnCouldNotRead])
  | JsonFile (JObj data) => (omap convert data, [])
  | JsonFile _ => (∅, [])
  end.

(** [load_saved_models] of [public_app_v0.py]: the dict as stored. *)
Definition load_saved_models_public (d : disk)
  : gmap string json * list notice :=
  match content d with
  | NoFile => (∅, [])
  | BadFile => (∅, [WarnCouldNotRead])
  | JsonFile (JObj data) => (data, [])
  | JsonFile _ => (∅, [])
  end.

(** Truth value of a JSON value in a condition. *)
Definition json_truthy (v : json) : bool :=
  match v with
  | JNull => false
  | JBool b => b
  | JNum z => negb (z =? 0)%Z
  | JStr s => PyStr.truthy s
  | JArr l => match l with [] => false | _ => true end
  | JObj m => negb (bool_decide (m = ∅))
  end.

(** One step of the loop that fills [public_models] in
    [create_public_gui]. *)
Definition public_step (alias : string) (model_info : json)
    (acc : outcome (gmap string json)) : outcome (gmap string json) :=
  let! public_models := acc in
  match model_info with
  | JObj d =>
      if json_truthy (default (JBool true) (d !! "public"))
      then match d !! "id" with
           | Some id => Returned (<[alias := id]> public_models)
           | None => Raised KeyError
           end
      else Returned public_models
  | JStr s => Returned (<[alias := JStr s]> public_models)
  | _ => Returned public_models
  end.

Definition public_models (all_models : gmap string json)
  : outcome (gmap string json) :=
  map_fold public_step (Returned ∅) all_models.

(** [save_saved_models]: the whole file is replaced; a failing [open] is
    caught and reported, and leaves the file as it was. *)
Definition save_saved_models (models_dict : models) (d : disk)
  : disk * list notice :=
  if writable d
  then (Disk (JsonFile (JObj (JObj <$> models_dict))) true, [])
  else (d, [ErrorSaving]).

(** Lines 145-148: copy the builtins, then store every user entry. *)
Definition merge_models {V} (builtin user : gmap string V) : gmap string V :=
  map_fold (λ alias data_dict merged, <[alias := data_dict]> merged)
           builtin user.

(** The state a script run works on: the session's merged view, the
    registry file, the notices shown so far. *)
Record page : Type := Page {
  fine_tuned_models : models;
  store : disk;
  shown : list notice
}.

(** Block B of [create_admin_gui]: [session] is
    [st.session_state.get("fine_tuned_models")]. *)
Definition start (session : option models) (d : disk) : page :=
  match session with
  | Some merged => Page merged d []
  | None =>
      let '(user_models, warnings) := load_saved_models d in
      Page (merge_models PRE_CREATED_MODELS user_models) d warnings
  end.

(** The "Add/Update Model" button (lines 357-371). *)
Definition add_update_model (alias_in id_in : string) (public_in : bool)
    (p : page) : page :=
  if PyStr.truthy (PyStr.strip alias_in) && PyStr.truthy (PyStr.strip id_in)
  then
    let session := <[alias_in := mk_entry id_in public_in]>
                     (fine_tuned_models p) in
    let '(user_models, w1) := load_saved_models (store p) in
    let '(d, w2) :=
      save_saved_models (<[alias_in := mk_entry id_in public_in]> user_models)
                        (store p) in
    Page session d (shown p ++ w1 ++ w2 ++ [SuccessAdded alias_in])
  else Page (fine_tuned_models p) (store p) (shown p ++ [WarnProvideBoth]).

(** State of the three widgets of one expander of the "Manage Models"
    form. A widget returns its current value; the [value=] argument only
    seeds it. [st.text_input] returns the text of the box, or [None] for a
    box seeded with [value=None] (an entry whose [id] is null) in which
    nothing was typed. *)
Record widget : Type := Widget {
  w_id : option string;
  w_public : bool;
  w_remove : bool
}.

(** What [new_id] holds, as the JSON value it is saved as. *)
Definition id_value (new_id : option string) : json :=
  match new_id with
  | Some s => JStr s
  | None => JNull
  end.

(** The dict [{"id": new_id, "public": new_public}] of lines 313-316. *)
Definition form_entry (w : string → widget) (alias : string) : entry :=
  <["id" := id_value (w_id (w alias))]>
    (<["public" := JBool (w_public (w alias))]> ∅).

(** Body of the loop of lines 293-318 for one alias. Evaluating
    [all_models[alias]] and [model_info["id"]] raises [KeyError] when the
    key is missing. *)
Definition form_step (w : string → widget) (all_models : models)
    (acc : outcome (models * list string)) (alias : string)
  : outcome (models * list string) :=
  let! st := acc in
  match all_models !! alias with
  | None => Raised KeyError
  | Some model_info =>
      match model_info !! "id" with
      | None => Raised KeyError
      | Some _ =>
          let updated_data := <[alias := form_entry w alias]> (fst st) in
          Returned (updated_data,
                    if w_remove (w alias) then snd st ++ [alias] else snd st)
      end
  end.

(** Lines 289-318: [updated_data] and [removed_aliases]. *)
Definition render_manage_form (w : string → widget) (all_models : models)
  : outcome (models * list string) :=
  foldl (form_step w all_models) (Returned (∅, []))
        (PyStr.sorted (elements (dom all_models))).

(** [for alias, val in updated_data.items():
       if alias not in removed_aliases: target[alias] = val] *)
Definition apply_updates (updated_data : models)
    (removed_aliases : list string) (target : models) : models :=
  map_fold (λ alias val acc,
              if decide (alias ∈ removed_aliases) then acc
              else <[alias := val]> acc)
           target updated_data.

(** [del target[alias]] *)
Definition py_del (alias : string) (target : models) : outcome models :=
  match target !! alias with
  | Some _ => Returned (delete alias target)
  | None => Raised KeyError
  end.

(** [for r_alias in removed_aliases:
       if r_alias in target: del target[r_alias]] *)
Definition apply_removals (removed_aliases : list string) (target : models)
  : outcome models :=
  foldl (λ acc r_alias,
           let! t := acc in
           if decide (is_Some (t !! r_alias)) then py_del r_alias t
           else Returned t)
        (Returned target) removed_aliases.

(** The "Save All Changes" button (lines 321-343). *)
Definition save_all_changes (updated_data : models)
    (removed_aliases : list string) (p : page) : outcome page :=
  let! session :=
    apply_removals removed_aliases
      (apply_updates updated_data removed_aliases (fine_tuned_models p)) in
  let '(user_models, w1) := load_saved_models (store p) in
  let! user_models' :=
    apply_removals removed_aliases
      (apply_updates updated_data removed_aliases user_models) in
  let '(d, w2) := save_saved_models user_models' (store p) in
  Returned (Page session d (shown p ++ w1 ++ w2 ++ [SuccessAllSaved])).

(** A click on "Save All Changes" in a run whose session holds
    [fine_tuned_models p]; the form and the button exist only when the
    session has a model. *)
Definition click_save_all (w : string → widget) (p : page) : outcome page :=
  if bool_decide (fine_tuned_models p = ∅) then Returned p
  else
    let! form := render_manage_form w (fine_tuned_models p) in
    save_all_changes (fst form) (snd form) p.

(** A fresh installation: no registry file, a writable directory. *)
Definition fresh_disk : disk := Disk NoFile true.

(** Widgets that all show this id, public, not flagged for removal. *)
Definition retag (id : string) : string → widget :=
  λ _, Widget (Some id) true false.


(** Every entry of the session has an ["id"]. *)
Definition session_ok (m : models) : Prop :=
  ∀ alias e, m !! alias = Some e → is_Some (e !! "id").

(** An entry as [load_saved_models] (admin) returns it. *)
Definition normalized (e : entry) : Prop :=
  is_Some (e !! "id") ∧ is_Some (e !! "public").

(** Lookup in a dict once [updated_data] is applied and
    [removed_aliases] are deleted. *)
Definition after_changes (updated_data : models) (removed : list string)
    (base : models) (alias : string) : option entry :=
  if decide (alias ∈ removed) then None
  else match updated_data !! alias with
       | Some val => Some val
       | None => base !! alias
       end.

(** Lookup in a dict after a click on "Save All Changes" with the
    widgets [w], the form having been drawn from [session]. *)
Definition after_save_all (w : string → widget) (session base : models)
    (alias : string) : option entry :=
  match session !! alias with
  | Some _ => if w_remove (w alias) then None else Some (form_entry w alias)
  | None => base !! alias
  end.

End Registry.

(* ===================================================================== *)
(** * 3. The merge of block B on a heap of dict objects                   *)
(* ===================================================================== *)

(** Python dicts are objects: [merged_models = dict(PRE_CREATED_MODELS)]
  allocates a new one, [merged_models[alias] = data_dict] updates the
  object [merged_models] names. The values of a dict are kept abstract
  (they are references to the entry dicts). *)
Module Heap.

(** Addresses of dict objects, and the objects by address. *)
Abbreviation loc := positive (only parsing).
Abbreviation heap V := (gmap positive (gmap string V)) (only parsing).

Section DictObjects.
Context {V : Type}.

(** [dict(src)]: a new object with the items of [src]. *)
Definition py_dict (h : heap V) (src : loc) : option (heap V * loc) :=
  d ← h !! src;
  let l := fresh (dom h) in
  Some (<[l := d]> h, l).

(** [target[key] = v] *)
Definition py_setitem (h : heap V) (target : loc) (key : string) (v : V)
  : option (heap V) :=
  d ← h !! target;
  Some (<[target := <[key := v]> d]> h).

(** Lines 145-148 with [PRE_CREATED_MODELS] at [pre] and the dict that
    [load_saved_models()] returned at [user]. *)
Definition merge_block (h : heap V) (pre user : loc)
  : option (heap V * loc) :=
  '(h1, merged_models) ← py_dict h pre;
  user_items ← h1 !! user;
  h2 ← map_fold (λ alias data_dict acc,
                   h' ← acc; py_setitem h' merged_models alias data_dict)
                (Some h1) user_items;
  Some (h2, merged_models).

End DictObjects.
End Heap.

(* ===================================================================== *)
(** * 4. CSV rows and the JSONL builder                                   *)
(* ===================================================================== *)

Module Builder.

(** A row of [csv.DictReader]: the named cells ([None] is the [restval]
    of a short line) and, under the key [None], the surplus cells of a
    long line. *)
Record row : Type := Row {
  fields : gmap string (option string);
  rest : option (list string)
}.

(** The columns the builder reads. *)
Definition mail_header : list string :=
  ["Parsed From"; "Parsed Subject"; "Parsed Body"].

(** [row.get(key)] for a string key; the outer [None] is a missing key. *)
Definition row_get (r : row) (key : string) : option (option string) :=
  fields r !! key.

(** The dict [csv.DictReader] builds from one line of cells. *)
Definition dict_row (fieldnames cells : list string) : row :=
  let d := foldl (λ d kv, <[fst kv := Some (snd kv)]> d) ∅
                 (zip fieldnames cells) in
  let lf := length fieldnames in
  let lr := length cells in
  if (lf <? lr)%nat then Row d (Some (drop lf cells))
  else Row (foldl (λ d key, <[key := None]> d) d (drop lr fieldnames)) None.

(** A line as the [csv] reader delivers it: its cells, or [csv.Error]. *)
Inductive csv_line : Type :=
  | Cells (cells : list string)
  | BadLine.

(** The rows after the header, up to the first error; blank lines are
    skipped. The flag tells whether an error ended the iteration. *)
Fixpoint reader_rows (fieldnames : list string) (lines : list csv_line)
  : list row * bool :=
  match lines with
  | [] => ([], false)
  | BadLine :: _ => ([], true)
  | Cells [] :: more => reader_rows fieldnames more
  | Cells cells :: more =>
      let '(rows, failed) := reader_rows fieldnames more in
      (dict_row fieldnames cells :: rows, failed)
  end.

(** Iterating [csv.DictReader(lines)]: the first line is the header. *)
Definition dict_reader (lines : list csv_line) : list row * bool :=
  match lines with
  | [] => ([], false)
  | BadLine :: _ => ([], true)
  | Cells fieldnames :: more => reader_rows fieldnames more
  end.

Record upload : Type := Upload { name : string; lines : list csv_line }.

Inductive upload_notice : Type := ErrorReadingFile (file_name : string).

(** [read_rows_from_multiple_csvs]: rows appended before an error stay. *)
Definition read_rows_from_multiple_csvs (uploaded_files : list upload)
  : list row * list upload_notice :=
  foldl (λ acc file_obj,
           let '(rows, failed) := dict_reader (lines file_obj) in
           (fst acc ++ rows,
            if failed then snd acc ++ [ErrorReadingFile (name file_obj)]
            else snd acc))
        ([], []) uploaded_files.

(** ** [json.dumps] of the record *)

(** The Python value [data_line] is made of: dicts keep the order of
    their items. *)
Inductive pyobj : Type :=
  | PStr (s : string)
  | PList (l : list pyobj)
  | PDict (items : list (string * pyobj)).

Definition dq : ascii := ascii_of_nat 34.
Definition backslash : ascii := ascii_of_nat 92.
Definition nl : string := String (ascii_of_nat 10) "".

Definition hex_digit (n : nat) : ascii :=
  ascii_of_nat (if (n <? 10)%nat then 48 + n else 87 + n).

(** One character inside a JSON string, with [ensure_ascii=True]. *)
Definition esc_char (c : ascii) : string :=
  let n := nat_of_ascii c in
  if (n =? 34)%nat then String backslash (String dq "")
  else if (n =? 92)%nat then String backslash (String backslash "")
  else if (n =? 10)%nat then String backslash "n"
  else if (n =? 13)%nat then String backslash "r"
  else if (n =? 9)%nat then String backslash "t"
  else if (n =? 8)%nat then String backslash "b"
  else if (n =? 12)%nat then String backslash "f"
  else if ((32 <=? n) && (n <=? 126))%nat then String c ""
  else String backslash
         ("u00" +:+ String (hex_digit (n / 16)) (String (hex_digit (n mod 16)) "")).

Fixpoint esc (s : string) : string :=
  match s with
  | EmptyString => EmptyString
  | String c r => esc_char c +:+ esc r
  end.

Definition encode_str (s : string) : string :=
  String dq (esc s +:+ String dq "").

(** [json.dumps(v)] with the default separators. *)
Fixpoint json_dumps (v : pyobj) : string :=
  match v with
  | PStr s => encode_str s
  | PList l => "[" +:+ String.concat ", " (map json_dumps l) +:+ "]"
  | PDict items =>
      "{" +:+ String.concat ", "
                (map (λ kv, encode_str (fst kv) +:+ ": " +:+ json_dumps (snd kv))
                     items)
          +:+ "}"
  end.

Definition message (role content : string) : pyobj :=
  PDict [("role", PStr role); ("content", PStr content)].

Definition user_content (subject : string) : string :=
  "Subject: " +:+ subject +:+ nl +:+ "Please respond with the email body style.".

(** The dict [data_line] of lines 108-113. *)
Definition data_line (subject body : string) : pyobj :=
  PDict [("messages",
          PList [message "user" (user_content subject);
                 message "assistant" body])].

(** What one iteration writes: [json.dumps(data_line) + "\n"]. *)
Definition record_line (rec : string * string) : string :=
  json_dumps (data_line (fst rec) (snd rec)) +:+ nl.

(** ** [build_jsonl_for_senders] *)

(** [(row.get(key) or "")] *)
Definition get_or_empty (r : row) (key : string) : string :=
  match row_get r key with
  | Some (Some s) => s
  | _ => ""
  end.

(** [row.get(key, "").strip()]: [None] has no [strip]. *)
Definition get_default_strip (r : row) (key : string) : outcome string :=
  match row_get r key with
  | None => Returned (PyStr.strip "")
  | Some (Some s) => Returned (PyStr.strip s)
  | Some None => Raised AttributeError
  end.

(** Lines 100-101: the test that selects a row. *)
Definition sender_selected (lower_senders : list string) (r : row) : bool :=
  let parsed_sender :=
    PyStr.lower (PyStr.strip (get_or_empty r "Parsed From")) in
  bool_decide (parsed_sender ∈ lower_senders).

(** Lines 102-103: subject and body of a selected row. *)
Definition record_of (r : row) : outcome (string * string) :=
  let! subject := get_default_strip r "Parsed Subject" in
  let! body := get_default_strip r "Parsed Body" in
  Returned (subject, body).

(** The loop of lines 99-115: [f_out] is the text written so far. *)
Fixpoint write_rows (lower_senders : list string) (all_rows : list row)
    (f_out : string) (count : nat) : string * outcome nat :=
  match all_rows with
  | [] => (f_out, Returned count)
  | r :: more =>
      if sender_selected lower_senders r then
        match record_of r with
        | Raised e => (f_out, Raised e)
        | Returned rec =>
            write_rows lower_senders more (f_out +:+ record_line rec)
                       (S count)
        end
      else write_rows lower_senders more f_out count
  end.

(** The files by path. *)
Definition files : Type := gmap string string.

(** [build_jsonl_for_senders]: [open(output_jsonl, "w")] starts from an
    empty file, and what was written stays when the loop raises. *)
Definition build_jsonl_for_senders (all_rows : list row)
    (selected_senders : list string) (output_jsonl : string) (fs : files)
  : files * outcome nat :=
  let lower_senders := map PyStr.lower selected_senders in
  let '(text, result) := write_rows lower_senders all_rows "" 0 in
  (<[output_jsonl := text]> fs, result).

(** Subject and body of a record, with [""] for a cell that is missing
    or [None]. *)
Definition rec_fields (r : row) : string * string :=
  (PyStr.strip (get_or_empty r "Parsed Subject"),
   PyStr.strip (get_or_empty r "Parsed Body")).

(** The text of a file made of the lines of these records. *)
Definition lines_text (recs : list (string * string)) : string :=
  foldr (λ rec text, record_line rec +:+ text) "" recs.

(** The rows the loop selects, in input order. *)
Definition selected_rows (selected_senders : list string)
    (all_rows : list row) : list row :=
  List.filter (sender_selected (map PyStr.lower selected_senders)) all_rows.

(** Neither the subject nor the body cell is [None]. *)
Definition cells_ok (r : row) : Prop :=
  row_get r "Parsed Subject" ≠ Some None
  ∧ row_get r "Parsed Body" ≠ Some None.

(** Number of line ends in a text. *)
Fixpoint count_newlines (s : string) : nat :=
  match s with
  | EmptyString => 0
  | String c r =>
      (if (nat_of_ascii c =? 10)%nat then 1 else 0) + count_newlines r
  end.

(** Every character is printable ASCII (0x20..0x7E). *)
Fixpoint printable (s : string) : bool :=
  match s with
  | EmptyString => true
  | String c r =>
      ((32 <=? nat_of_ascii c) && (nat_of_ascii c <=? 126))%nat && printable r
  end.

End Builder.

(* ===================================================================== *)
(** * 5. Senders and their grouping by first name                         *)
(* ===================================================================== *)

Module Senders.
Import Builder.

(** Lines 391-396. *)
Definition distinct_senders (all_rows : list row) : list string :=
  PyStr.sorted
    (elements
       (foldl (λ (senders : gset string) r,
                 let frm := PyStr.strip (get_or_empty r "Parsed From") in
                 if PyStr.truthy frm then senders ∪ {[frm]} else senders)
              ∅ all_rows)).

(** [get_first_name]: [split()[0]] raises on a blank, non-empty name. *)
Definition get_first_name (full_name : string) : outcome string :=
  if PyStr.truthy full_name then
    match PyStr.split full_name with
    | first :: _ => Returned first
    | [] => Raised IndexError
    end
  else Returned "".

(** Body of the loop of lines 401-405. *)
Definition group_step (acc : outcome (gmap string (list string)))
    (sender : string) : outcome (gmap string (list string)) :=
  let! grouped_senders := acc in
  let! first_name := get_first_name sender in
  let grouped :=
    match grouped_senders !! first_name with
    | None => <[first_name := []]> grouped_senders
    | Some _ => grouped_senders
    end in
  match grouped !! first_name with
  | Some full_list => Returned (<[first_name := full_list ++ [sender]]> grouped)
  | None => Raised KeyError
  end.

(** Lines 400-405: [grouped_senders]. *)
Definition group_senders (senders : list string)
  : outcome (gmap string (list string)) :=
  foldl group_step (Returned ∅) senders.

Definition all_variations : string := "(All variations)".

(** Lines 409-412: the choice shown for one group. *)
Definition display_choice (fn : string) (full_list : list string)
  : outcome string :=
  if (1 <? length full_list)%nat
  then Returned (fn +:+ " " +:+ all_variations)
  else match full_list with
       | x :: _ => Returned x
       | [] => Raised IndexError
       end.

(** Lines 407-412: [display_senders], one choice per group (the widget
    shows them sorted). *)
Definition display_senders (grouped_senders : gmap string (list string))
  : outcome (list string) :=
  foldr (λ kv acc,
           let! d := display_choice (fst kv) (snd kv) in
           let! ds := acc in
           Returned (d :: ds))
        (Returned []) (map_to_list grouped_senders).

(** Body of the loop of lines 416-421. *)
Definition expand_step (grouped_senders : gmap string (list string))
    (acc : outcome (list string)) (d : string) : outcome (list string) :=
  let! selected_senders := acc in
  if PyStr.endswith d all_variations then
    match PyStr.split d with
    | fn :: _ =>
        match grouped_senders !! fn with
        | Some full_list => Returned (selected_senders ++ full_list)
        | None => Raised KeyError
        end
    | [] => Raised IndexError
    end
  else Returned (selected_senders ++ [d]).

(** Lines 415-421: [selected_senders] from the chosen display values. *)
Definition expand_selection (grouped_senders : gmap string (list string))
    (selected_disp : list string) : outcome (list string) :=
  foldl (expand_step grouped_senders) (Returned []) selected_disp.

(** The first whitespace-delimited token of a string ([""] if none). *)
Definition first_token (s : string) : string := hd "" (PyStr.split s).

(** A sender as [distinct_senders] yields it: trimmed and not empty. *)
Definition trimmed_nonempty (s : string) : Prop :=
  PyStr.strip s = s ∧ s ≠ "".

(** The senders whose first token is [fn], in order. *)
Definition members_of (fn : string) (senders : list string) : list string :=
  filter (λ s, first_token s = fn) senders.

(** The group stored under [fn]: none when no sender starts with it. *)
Definition group_of (fn : string) (senders : list string)
  : option (list string) :=
  match members_of fn senders with
  | [] => None
  | members => Some members
  end.

End Senders.


(* ===================================================================== *)
(** * 5b. The other handlers: job monitor, public list, JSONL button      *)
(* ===================================================================== *)

Module RegistryOps.
Import Registry.

(** What [client.fine_tuning.jobs.retrieve] gives on one poll (lines
    498-517): the job succeeded, with [status.fine_tuned_model]; it
    failed; it has another status; or the call raised. *)
Inductive job_status : Type :=
| Succeeded (fine_tuned_model : option string)
| Failed
| Pending
| RetrieveError.

Inductive monitor_notice : Type :=
| FineTuneSucceeded
| NoFineTunedModel
| StoredModel (ft_model : string)
| FineTuneFailed
| ErrorRetrieving.

(** [f"{ft_model}-{len(st.session_state['fine_tuned_models'])+1}"] *)
Definition new_key (ft_model : string) (session : models) : string :=
  ft_model +:+ "-" +:+ pretty (S (size session)).

(** One run of the "Monitor Fine-Tune Job" block with a current job
    (lines 487-519). *)
Definition monitor_job (status : job_status) (p : page)
  : page * list monitor_notice :=
  match status with
  | Succeeded (Some ft_model) =>
      if PyStr.truthy ft_model then
        let key := new_key ft_model (fine_tuned_models p) in
        let session := <[key := mk_entry ft_model true]>
                         (fine_tuned_models p) in
        let '(user_models, w1) := load_saved_models (store p) in
        let '(d, w2) :=
          save_saved_models (<[key := mk_entry ft_model true]> user_models)
                            (store p) in
        (Page session d (shown p ++ w1 ++ w2),
         [FineTuneSucceeded; StoredModel ft_model])
      else (p, [FineTuneSucceeded; NoFineTunedModel])
  | Succeeded None => (p, [FineTuneSucceeded; NoFineTunedModel])
  | Failed => (p, [FineTuneFailed])
  | Pending => (p, [])
  | RetrieveError => (p, [ErrorRetrieving])
  end.

(** The pages the admin application can be in: a session starts from the
    registry file, a script run handles one event, and between runs the
    registry file may be replaced from outside. *)
Inductive reachable : page → Prop :=
| reach_start d : reachable (start None d)
| reach_add alias_in id_in public_in p :
    reachable p → reachable (add_update_model alias_in id_in public_in p)
| reach_save w p p' :
    reachable p → click_save_all w p = Returned p' → reachable p'
| reach_monitor status p :
    reachable p → reachable (monitor_job status p).1
| reach_disk p d :
    reachable p → reachable (Page (fine_tuned_models p) d (shown p)).

(** The widgets of the "Manage Models" form as it is first drawn: each
    shows the [id] string and the [public] flag ([True] when absent) of
    its entry, and no removal is ticked. *)
Definition untouched (w : string → widget) (session : models) : Prop :=
  ∀ alias model_info,
    session !! alias = Some model_info →
    ∃ id public,
      model_info !! "id" = Some (JStr id)
      ∧ default (JBool true) (model_info !! "public") = JBool public
      ∧ w alias = Widget (Some id) public false.

(** What the public list shows for one stored value (lines 49-57), when
    its [id] can be read. *)
Definition public_id (model_info : json) : option json :=
  match model_info with
  | JObj d =>
      if json_truthy (default (JBool true) (d !! "public"))
      then d !! "id" else None
  | JStr s => Some (JStr s)
  | _ => None
  end.

(** A stored dict that counts as public and has no [id]. *)
Definition lacks_id (model_info : json) : Prop :=
  match model_info with
  | JObj d =>
      json_truthy (default (JBool true) (d !! "public")) = true
      ∧ d !! "id" = None
  | _ => False
  end.

(** The [id] of an entry of the admin's load, if the entry is public. *)
Definition entry_public_id (e : entry) : option json :=
  if json_truthy (default (JBool true) (e !! "public"))
  then e !! "id" else None.

(** Lines 59-65 of [create_public_gui]: the aliases offered, [None] when
    the warning is shown instead. *)
Definition public_choices (public_models : gmap string json)
  : option (list string) :=
  if bool_decide (public_models = ∅) then None
  else Some (PyStr.sorted (elements (dom public_models))).

End RegistryOps.

Module BuilderOps.
Import Builder.

Definition jsonl_file_name : string := "filtered_data.jsonl".

Inductive generate_notice : Type :=
| Created (count : nat)
| NoRowsFound
| PickSender.

(** The "Generate JSONL for Selected Senders" step (lines 425-436):
    [jsonl_file] is [st.session_state.get("jsonl_file")]. The button
    exists only when a sender is selected. *)
Definition generate_click (all_rows : list row)
    (selected_senders : list string) (fs : files)
    (jsonl_file : option string)
  : files * outcome (option string * generate_notice) :=
  match selected_senders with
  | [] => (fs, Returned (jsonl_file, PickSender))
  | _ =>
      let '(fs', result) :=
        build_jsonl_for_senders all_rows selected_senders jsonl_file_name
                                fs in
      (fs',
       let! count := result in
       if (0 <? count)%nat
       then Returned (Some jsonl_file_name, Created count)
       else Returned (jsonl_file, NoRowsFound))
  end.





End BuilderOps.

(** ** JSON texts

    What it means for a line to be a JSON text: a reader for the JSON
    grammar (RFC 8259) restricted to strings, arrays and objects, the
    values a record is made of. It is written from the grammar, not from
    [json.dumps]. *)
Module JsonText.
Import Builder.

(** JSON whitespace: space, tab, line feed, carriage return. *)
Definition is_ws (c : ascii) : bool :=
  let n := nat_of_ascii c in
  ((n =? 32) || (n =? 9) || (n =? 10) || (n =? 13))%nat.

Fixpoint skip_ws (s : string) : string :=
  match s with
  | EmptyString => EmptyString
  | String c r => if is_ws c then skip_ws r else s
  end.

(** Value of a hexadecimal digit, in either case. *)
Definition hex_digit_value (c : ascii) : option nat :=
  let n := nat_of_ascii c in
  if ((48 <=? n) && (n <=? 57))%nat then Some (n - 48)
  else if ((97 <=? n) && (n <=? 102))%nat then Some (n - 87)
  else if ((65 <=? n) && (n <=? 70))%nat then Some (n - 55)
  else None.

(** The character a two-character escape stands for. *)
Definition simple_escape (c : ascii) : option ascii :=
  let n := nat_of_ascii c in
  if (n =? 34)%nat then Some c
  else if (n =? 92)%nat then Some c
  else if (n =? 47)%nat then Some c
  else if (n =? 98)%nat then Some (ascii_of_nat 8)
  else if (n =? 102)%nat then Some (ascii_of_nat 12)
  else if (n =? 110)%nat then Some (ascii_of_nat 10)
  else if (n =? 114)%nat then Some (ascii_of_nat 13)
  else if (n =? 116)%nat then Some (ascii_of_nat 9)
  else None.

(** Reads a string literal after its opening quote: the string it
    denotes and the text after the closing quote. A control character
    must be escaped; a [\uXXXX] escape is read when it names a code point
    below 256. *)
Fixpoint read_chars (s : string) : option (string * string) :=
  match s with
  | EmptyString => None
  | String c r =>
      let n := nat_of_ascii c in
      if (n =? 34)%nat then Some (EmptyString, r)
      else if (n =? 92)%nat then
        match r with
        | EmptyString => None
        | String x r1 =>
            if (nat_of_ascii x =? 117)%nat then
              match r1 with
              | String a (String b (String h (String l r2))) =>
                  match hex_digit_value a, hex_digit_value b,
                        hex_digit_value h, hex_digit_value l with
                  | Some 0, Some 0, Some vh, Some vl =>
                      match read_chars r2 with
                      | Some (body, rest) =>
                          Some (String (ascii_of_nat (16 * vh + vl)) body,
                                rest)
                      | None => None
                      end
                  | _, _, _, _ => None
                  end
              | _ => None
              end
            else
              match simple_escape x with
              | Some ch =>
                  match read_chars r1 with
                  | Some (body, rest) => Some (String ch body, rest)
                  | None => None
                  end
              | None => None
              end
        end
      else if (n <? 32)%nat then None
      else
        match read_chars r with
        | Some (body, rest) => Some (String c body, rest)
        | None => None
        end
  end.

(** Reads one JSON value made of strings, arrays and objects off the
    front of a text, with the whitespace the grammar allows between
    tokens: the value and the text that follows it. [fuel] bounds the
    number of nested calls. *)
Fixpoint read_value (fuel : nat) (s : string) : option (pyobj * string) :=
  match fuel with
  | 0 => None
  | S fuel =>
      match skip_ws s with
      | EmptyString => None
      | String c r =>
          let n := nat_of_ascii c in
          if (n =? 34)%nat then
            match read_chars r with
            | Some (body, rest) => Some (PStr body, rest)
            | None => None
            end
          else if (n =? 91)%nat then
            match skip_ws r with
            | EmptyString => None
            | String c' r' =>
                if (nat_of_ascii c' =? 93)%nat then Some (PList [], r')
                else
                  match read_elements fuel r with
                  | Some (l, rest) => Some (PList l, rest)
                  | None => None
                  end
            end
          else if (n =? 123)%nat then
            match skip_ws r with
            | EmptyString => None
            | String c' r' =>
                if (nat_of_ascii c' =? 125)%nat then Some (PDict [], r')
                else
                  match read_members fuel r with
                  | Some (items, rest) => Some (PDict items, rest)
                  | None => None
                  end
            end
          else None
      end
  end
with read_elements (fuel : nat) (s : string)
  : option (list pyobj * string) :=
  match fuel with
  | 0 => None
  | S fuel =>
      match read_value fuel s with
      | None => None
      | Some (v, rest) =>
          match skip_ws rest with
          | EmptyString => None
          | String c r =>
              if (nat_of_ascii c =? 44)%nat then
                match read_elements fuel r with
                | Some (l, rest') => Some (v :: l, rest')
                | None => None
                end
              else if (nat_of_ascii c =? 93)%nat then Some ([v], r)
              else None
          end
      end
  end
with read_members (fuel : nat) (s : string)
  : option (list (string * pyobj) * string) :=
  match fuel with
  | 0 => None
  | S fuel =>
      match skip_ws s with
      | EmptyString => None
      | String q r =>
          if (nat_of_ascii q =? 34)%nat then
            match read_chars r with
            | None => None
            | Some (key, rest) =>
                match skip_ws rest with
                | EmptyString => None
                | String c r1 =>
                    if (nat_of_ascii c =? 58)%nat then
                      match read_value fuel r1 with
                      | None => None
                      | Some (v, rest1) =>
                          match skip_ws rest1 with
                          | EmptyString => None
                          | String c2 r2 =>
                              if (nat_of_ascii c2 =? 44)%nat then
                                match read_members fuel r2 with
                                | Some (items, rest2) =>
                                    Some ((key, v) :: items, rest2)
                                | None => None
                                end
                              else if (nat_of_ascii c2 =? 125)%nat
                              then Some ([(key, v)], r2)
                              else None
                          end
                      end
                    else None
                end
            end
          else None
      end
  end.

(** The value a JSON text denotes: one value, then whitespace only. No
    call nests deeper than the text is long. *)
Definition json_loads (s : string) : option pyobj :=
  match read_value (String.length s) s with
  | Some (v, rest) =>
      match skip_ws rest with
      | EmptyString => Some v
      | String _ _ => None
      end
  | None => None
  end.

End JsonText.

(* ===================================================================== *)
(** * 6. Facts about the string functions                                 *)
(* ===================================================================== *)

Module PyStrFacts.
Import PyStr.

Lemma app_empty_r (s : string) : s +:+ "" = s.
Proof. induction s as [|c r IH]; simpl; [done | by rewrite IH]. Qed.

Lemma app_assoc (a b c : string) : (a +:+ b) +:+ c = a +:+ (b +:+ c).
Proof. induction a as [|x r IH]; simpl; [done | by rewrite IH]. Qed.

Lemma app_length (a b : string) :
  String.length (a +:+ b) = String.length a + String.length b.
Proof. induction a as [|x r IH]; simpl; [done | by rewrite IH]. Qed.

Lemma truthy_true (s : string) : truthy s = true ↔ s ≠ "".
Proof.
  unfold truthy. destruct (String.eqb_spec s ""); simpl; split; try done.
Qed.

Lemma truthy_false (s : string) : truthy s = false ↔ s = "".
Proof.
  unfold truthy. destruct (String.eqb_spec s ""); simpl; split; try done.
Qed.

(** Lower-casing never turns a character into, or out of, whitespace. *)
Lemma is_space_lower_char (c : ascii) : is_space (lower_char c) = is_space c.
Proof.
  destruct c as [b0 b1 b2 b3 b4 b5 b6 b7].
  destruct b0, b1, b2, b3, b4, b5, b6, b7; reflexivity.
Qed.

Lemma lower_length (s : string) : String.length (lower s) = String.length s.
Proof. induction s as [|c r IH]; simpl; [done | by rewrite IH]. Qed.

Lemma lstrip_lower (s : string) : lstrip (lower s) = lower (lstrip s).
Proof.
  induction s as [|c r IH]; simpl; [done|].
  rewrite is_space_lower_char. by destruct (is_space c).
Qed.

Lemma rstrip_lower (s : string) : rstrip (lower s) = lower (rstrip s).
Proof.
  induction s as [|c r IH]; simpl; [done|].
  rewrite IH, is_space_lower_char.
  destruct (rstrip r); simpl; [by destruct (is_space c) | done].
Qed.

Lemma strip_lower (s : string) : strip (lower s) = lower (strip s).
Proof. unfold strip. by rewrite lstrip_lower, rstrip_lower. Qed.

Lemma lstrip_idem (s : string) : lstrip (lstrip s) = lstrip s.
Proof.
  induction s as [|c r IH]; simpl; [done|].
  destruct (is_space c) eqn:E; [done|]. simpl. by rewrite E.
Qed.

Lemma rstrip_idem (s : string) : rstrip (rstrip s) = rstrip s.
Proof.
  induction s as [|c r IH]; simpl; [done|].
  destruct (rstrip r) as [|c' r'] eqn:E.
  - destruct (is_space c) eqn:Ec; simpl; [done | by rewrite Ec].
  - change (rstrip (String c (String c' r')) = String c (String c' r')).
    cbn [rstrip] in *. by rewrite IH.
Qed.

(** A string that starts with a non-blank keeps its start under
    [rstrip]. *)
Lemma lstrip_rstrip (u : string) :
  lstrip u = u → lstrip (rstrip u) = rstrip u.
Proof.
  destruct u as [|c r]; simpl; [done|].
  destruct (is_space c) eqn:E.
  - intros H. exfalso.
    assert (Hl : ∀ t, String.length (lstrip t) ≤ String.length t).
    { induction t as [|x t IH]; simpl; [lia|].
      destruct (is_space x); simpl; lia. }
    specialize (Hl r). rewrite H in Hl. simpl in Hl. lia.
  - intros _. destruct (rstrip r); simpl; by rewrite E.
Qed.

Lemma strip_idem (s : string) : strip (strip s) = strip s.
Proof.
  unfold strip.
  rewrite (lstrip_rstrip (lstrip s)) by apply lstrip_idem.
  apply rstrip_idem.
Qed.

Lemma lstrip_strip (s : string) : lstrip (strip s) = strip s.
Proof. unfold strip. apply lstrip_rstrip, lstrip_idem. Qed.

Lemma lstrip_shorter (s : string) :
  lstrip s = s ∨ String.length (lstrip s) < String.length s.
Proof.
  induction s as [|c r IH]; simpl; [by left|].
  destruct (is_space c); [|by left].
  right. destruct IH as [-> | IH]; lia.
Qed.

Lemma rstrip_shorter (s : string) :
  rstrip s = s ∨ String.length (rstrip s) < String.length s.
Proof.
  induction s as [|c r IH]; simpl; [by left|].
  destruct IH as [IH | IH].
  - rewrite IH. destruct r; [|by left].
    destruct (is_space c); [right; simpl; lia | by left].
  - right. destruct (rstrip r); [|simpl in *; lia].
    destruct (is_space c); simpl in *; lia.
Qed.

Lemma strip_shorter (s : string) :
  strip s = s ∨ String.length (strip s) < String.length s.
Proof.
  unfold strip.
  destruct (lstrip_shorter s) as [-> | H1]; [apply rstrip_shorter|].
  right. destruct (rstrip_shorter (lstrip s)) as [-> | H2]; lia.
Qed.

(** A string that agrees, up to case, with a trimmed string is trimmed. *)
Lemma lower_eq_trimmed (t s : string) :
  strip t = t → lower t = lower s → strip s = s.
Proof.
  intros Ht Heq.
  assert (Hl : lower (strip s) = lower s).
  { rewrite <- strip_lower, <- Heq, strip_lower. by rewrite Ht. }
  destruct (strip_shorter s) as [? | Hlt]; [done|].
  apply (f_equal String.length) in Hl. rewrite !lower_length in Hl. lia.
Qed.

Lemma no_space_app (a b : string) :
  no_space (a +:+ b) = no_space a && no_space b.
Proof.
  induction a as [|c r IH]; simpl; [done|].
  rewrite IH. by destruct (is_space c).
Qed.

Lemma eqb_app_char (tok : string) (c : ascii) :
  String.eqb (tok +:+ String c "") "" = false.
Proof. by destruct tok. Qed.

(** Reading on from a started token yields that token first. *)
Lemma split_from_started (s tok : string) :
  tok ≠ "" → no_space tok = true →
  ∃ fn more, split_from tok s = fn :: more ∧ fn ≠ "" ∧ no_space fn = true.
Proof.
  revert tok. induction s as [|c r IH]; intros tok Hne Hns; simpl.
  - rewrite (proj2 (String.eqb_neq _ _) Hne). by exists tok, [].
  - destruct (is_space c) eqn:E.
    + rewrite (proj2 (String.eqb_neq _ _) Hne). by eexists _, _.
    + apply IH.
      * by destruct tok.
      * rewrite no_space_app, Hns. simpl. by rewrite E.
Qed.

(** A string that starts with a non-blank has a first token. *)
Lemma split_trimmed (s : string) :
  s ≠ "" → lstrip s = s →
  ∃ fn more, split s = fn :: more ∧ fn ≠ "" ∧ no_space fn = true.
Proof.
  destruct s as [|c r]; [done|]. intros _ H. unfold split. simpl.
  destruct (is_space c) eqn:E.
  - exfalso. destruct (lstrip_shorter r) as [Hr | Hr];
      simpl in H; rewrite E in H.
    + rewrite Hr in H. apply (f_equal String.length) in H. simpl in H. lia.
    + rewrite H in Hr. simpl in Hr. lia.
  - apply split_from_started; [done|]. simpl. by rewrite E.
Qed.

(** The first token of [fn], a blank and anything is [fn]. *)
Lemma split_from_app (fn tok more : string) (c : ascii) :
  no_space fn = true → is_space c = true → tok +:+ fn ≠ "" →
  split_from tok (fn +:+ String c more) = (tok +:+ fn) :: split_from "" more.
Proof.
  revert tok. induction fn as [|a f IH]; intros tok Hns Hc Hne; simpl.
  - rewrite app_empty_r in *. rewrite Hc.
    by rewrite (proj2 (String.eqb_neq _ _) Hne).
  - simpl in Hns. apply andb_true_iff in Hns as [Ha Hf].
    apply negb_true_iff in Ha. rewrite Ha.
    rewrite IH; [|done|done|].
    + by rewrite app_assoc.
    + rewrite app_assoc. simpl. by destruct tok.
Qed.

Lemma split_first_app (fn more : string) (c : ascii) :
  fn ≠ "" → no_space fn = true → is_space c = true →
  split (fn +:+ String c more) = fn :: split more.
Proof. intros. unfold split. by rewrite split_from_app. Qed.

Lemma endswith_app (a b : string) : endswith (a +:+ b) b = true.
Proof.
  induction a as [|c r IH]; cbn -[String.eqb].
  - destruct b; cbn -[String.eqb]; by rewrite String.eqb_refl.
  - by destruct (String.eqb _ _).
Qed.

Lemma sorted_perm (xs : list string) : sorted xs ≡ₚ xs.
Proof. apply merge_sort_Permutation. Qed.

End PyStrFacts.

(* ===================================================================== *)
(** * 7. Facts about the registry                                         *)
(* ===================================================================== *)

Module RegistryFacts.
Import Registry.

Lemma mk_entry_normalized id public : normalized (mk_entry id public).
Proof. split; by eexists. Qed.

Lemma merge_models_lookup {V} (builtin user : gmap string V) alias :
  merge_models builtin user !! alias =
    match user !! alias with
    | Some data_dict => Some data_dict
    | None => builtin !! alias
    end.
Proof.
  unfold merge_models.
  apply (map_fold_weak_ind
           (λ r (u : gmap string V),
              r !! alias = match u !! alias with
                           | Some d => Some d
                           | None => builtin !! alias
                           end)).
  - by rewrite lookup_empty.
  - intros i x m r _ IH.
    destruct (decide (i = alias)) as [->|Hne].
    + by rewrite !lookup_insert_eq.
    + by rewrite !lookup_insert_ne.
Qed.

Lemma merge_models_union {V} (builtin user : gmap string V) :
  merge_models builtin user = user ∪ builtin.
Proof.
  apply map_eq. intros alias.
  rewrite merge_models_lookup, lookup_union.
  by destruct (user !! alias), (builtin !! alias).
Qed.

Lemma convert_normalized (val : json) (e : entry) :
  convert val = Some e → normalized e.
Proof.
  destruct val as [| | |s| |d]; simpl; try done.
  - intros [= <-]. apply mk_entry_normalized.
  - destruct (d !! "id") as [i|] eqn:Hid; [|done].
    destruct (d !! "public") as [pb|] eqn:Hp; intros [= <-]; split.
    + by rewrite Hid.
    + by rewrite Hp.
    + by rewrite lookup_insert_ne, Hid.
    + by rewrite lookup_insert_eq.
Qed.

Lemma convert_of_normalized (e : entry) :
  normalized e → convert (JObj e) = Some e.
Proof. intros [[i Hi] [pb Hp]]. simpl. by rewrite Hi, Hp. Qed.

Lemma load_normalized (d : disk) alias e :
  (load_saved_models d).1 !! alias = Some e → normalized e.
Proof.
  unfold load_saved_models.
  destruct (content d) as [| |[| | | | |data]]; simpl;
    try by rewrite lookup_empty.
  rewrite lookup_omap. destruct (data !! alias) as [val|]; simpl; [|done].
  apply convert_normalized.
Qed.

(** Reading back what [save_saved_models] wrote. *)
Lemma load_after_save (m : models) (d : disk) alias :
  writable d = true →
  (load_saved_models (save_saved_models m d).1).1 !! alias
    = m !! alias ≫= (λ e, convert (JObj e)).
Proof.
  intros Hw. unfold save_saved_models. rewrite Hw. simpl.
  rewrite lookup_omap, lookup_fmap. by destruct (m !! alias).
Qed.

Lemma load_after_save_normalized (m : models) (d : disk) alias e :
  writable d = true → m !! alias = Some e → normalized e →
  (load_saved_models (save_saved_models m d).1).1 !! alias = Some e.
Proof.
  intros Hw Hm Hn. rewrite load_after_save, Hm by done. simpl.
  by apply convert_of_normalized.
Qed.

Lemma save_unwritable (m : models) (d : disk) :
  writable d = false → save_saved_models m d = (d, [ErrorSaving]).
Proof. intros Hw. unfold save_saved_models. by rewrite Hw. Qed.

Lemma apply_updates_lookup (updated_data : models) removed base alias :
  apply_updates updated_data removed base !! alias =
    match updated_data !! alias with
    | Some val => if decide (alias ∈ removed) then base !! alias
                  else Some val
    | None => base !! alias
    end.
Proof.
  unfold apply_updates.
  apply (map_fold_weak_ind
           (λ r (u : models),
              r !! alias = match u !! alias with
                           | Some val => if decide (alias ∈ removed)
                                         then base !! alias else Some val
                           | None => base !! alias
                           end)).
  - by rewrite lookup_empty.
  - intros i x m r _ IH.
    destruct (decide (i = alias)) as [->|Hne].
    + rewrite lookup_insert_eq. destruct (decide (alias ∈ removed)).
      * rewrite IH. destruct (m !! alias); [|done].
        by destruct (decide (alias ∈ removed)).
      * by rewrite lookup_insert_eq.
    + rewrite (lookup_insert_ne m) by done.
      destruct (decide (i ∈ removed)); [done|].
      by rewrite lookup_insert_ne.
Qed.

(** The guarded [del] never raises: the loop is a plain deletion. *)
Lemma apply_removals_returns removed (target : models) :
  apply_removals removed target
    = Returned (foldl (λ t r_alias, delete r_alias t) target removed).
Proof.
  unfold apply_removals. revert target.
  induction removed as [|r rem IH]; intros target; simpl; [done|].
  destruct (decide (is_Some (target !! r))) as [[e He]|Hn].
  - unfold py_del. rewrite He. apply IH.
  - rewrite IH. do 2 f_equal. symmetry. apply delete_id.
    by apply eq_None_not_Some.
Qed.

Lemma lookup_foldl_delete removed (target : models) alias :
  foldl (λ t r_alias, delete r_alias t) target removed !! alias
    = if decide (alias ∈ removed) then None else target !! alias.
Proof.
  revert target.
  induction removed as [|r rem IH]; intros target; cbn [foldl].
  - by rewrite decide_False by apply not_elem_of_nil.
  - rewrite IH. destruct (decide (alias ∈ rem)) as [Hin|Hnin].
    + rewrite decide_True; [done | by right].
    + destruct (decide (alias = r)) as [->|Hne].
      * rewrite lookup_delete_eq. rewrite decide_True; [done | by left].
      * rewrite lookup_delete_ne by done.
        rewrite decide_False; [done|].
        intros [?|?]%elem_of_cons; done.
Qed.

(** Updates then removals, as both halves of the handler run them. *)
Lemma changes_applied updated_data removed (base : models) :
  ∃ result,
    apply_removals removed (apply_updates updated_data removed base)
      = Returned result
    ∧ ∀ alias, result !! alias
               = after_changes updated_data removed base alias.
Proof.
  eexists. split; [apply apply_removals_returns|].
  intros alias. rewrite lookup_foldl_delete, apply_updates_lookup.
  unfold after_changes. destruct (decide (alias ∈ removed)); [done|].
  by destruct (updated_data !! alias).
Qed.

(** The handler never raises, and what it leaves in the session and
    hands to [save_saved_models]. *)
Lemma save_all_changes_spec updated_data removed (p : page) :
  ∃ session user,
    save_all_changes updated_data removed p
      = Returned (Page session
                    (save_saved_models user (store p)).1
                    (shown p ++ (load_saved_models (store p)).2
                       ++ (save_saved_models user (store p)).2
                       ++ [SuccessAllSaved]))
    ∧ (∀ alias, session !! alias
         = after_changes updated_data removed (fine_tuned_models p) alias)
    ∧ (∀ alias, user !! alias
         = after_changes updated_data removed
             (load_saved_models (store p)).1 alias).
Proof.
  destruct (changes_applied updated_data removed (fine_tuned_models p))
    as (session & Hs & Hsl).
  destruct (changes_applied updated_data removed
              (load_saved_models (store p)).1) as (user & Hu & Hul).
  exists session, user. split; [|done].
  unfold save_all_changes. rewrite Hs. simpl.
  destruct (load_saved_models (store p)) as [um w1]. simpl in *.
  rewrite Hu. simpl.
  by destruct (save_saved_models user (store p)).
Qed.

Lemma form_entry_normalized w alias : normalized (form_entry w alias).
Proof. split; by eexists. Qed.


Lemma form_fold w (m : models) (l : list string) upd0 rem0 :
  session_ok m → (∀ a, a ∈ l → is_Some (m !! a)) →
  ∃ upd rem,
    foldl (form_step w m) (Returned (upd0, rem0)) l = Returned (upd, rem)
    ∧ (∀ a, upd !! a = if decide (a ∈ l) then Some (form_entry w a)
                       else upd0 !! a)
    ∧ (∀ a, a ∈ rem ↔ a ∈ rem0 ∨ (a ∈ l ∧ w_remove (w a) = true)).
Proof.
  intros Hok. revert upd0 rem0.
  induction l as [|x l IH]; intros upd0 rem0 Hl; cbn [foldl].
  - exists upd0, rem0. split; [done|]. split.
    + intros a. by rewrite decide_False by apply not_elem_of_nil.
    + intros a. split; [by left|]. intros [?|[?%not_elem_of_nil ?]]; done.
  - destruct (Hl x) as [e He]; [by left|].
    destruct (Hok _ _ He) as [i Hi].
    unfold form_step at 2. cbn [obind fst snd]. rewrite He, Hi.
    destruct (IH (<[x := form_entry w x]> upd0)
                (if w_remove (w x) then rem0 ++ [x] else rem0))
      as (upd & rem & Hf & Hu & Hr).
    { intros a Ha. apply Hl. by right. }
    exists upd, rem. split; [done|]. split.
    + intros a. rewrite Hu. destruct (decide (a ∈ l)) as [Hin|Hnin].
      * rewrite decide_True; [done | by right].
      * destruct (decide (a = x)) as [->|Hne].
        -- rewrite lookup_insert_eq. rewrite decide_True; [done | by left].
        -- rewrite lookup_insert_ne by done.
           rewrite decide_False; [done|].
           intros [?|?]%elem_of_cons; done.
    + intros a. rewrite Hr. rewrite elem_of_cons.
      destruct (w_remove (w x)) eqn:Ex.
      * rewrite elem_of_app, list_elem_of_singleton. split.
        -- intros [[? | ->] | [? ?]]; eauto.
        -- intros [? | [[-> | ?] ?]]; eauto.
      * split.
        -- intros [? | [? ?]]; eauto.
        -- intros [? | [[-> | ?] ?]]; eauto. congruence.
Qed.

(** With an ["id"] in every entry the form is drawn without error:
    one update per alias, and the flagged aliases. *)
Lemma render_manage_form_spec w (m : models) :
  session_ok m →
  ∃ upd rem,
    render_manage_form w m = Returned (upd, rem)
    ∧ (∀ a, upd !! a = (λ _, form_entry w a) <$> m !! a)
    ∧ (∀ a, a ∈ rem ↔ is_Some (m !! a) ∧ w_remove (w a) = true).
Proof.
  intros Hok. unfold render_manage_form.
  assert (Hmem : ∀ a, a ∈ PyStr.sorted (elements (dom m))
                      ↔ is_Some (m !! a)).
  { intros a. rewrite PyStrFacts.sorted_perm, elem_of_elements.
    apply elem_of_dom. }
  destruct (form_fold w m (PyStr.sorted (elements (dom m))) ∅ [] Hok)
    as (upd & rem & Hf & Hu & Hr).
  { intros a. apply Hmem. }
  exists upd, rem. split; [done|]. split.
  - intros a. rewrite Hu.
    destruct (decide (a ∈ _)) as [Hin|Hnin].
    + apply Hmem in Hin as [e ->]. done.
    + rewrite lookup_empty. destruct (m !! a) eqn:E; [|done].
      exfalso. apply Hnin, Hmem. by eexists.
  - intros a. rewrite Hr, Hmem. split.
    + intros [?%not_elem_of_nil|?]; done.
    + by right.
Qed.

(** A click on "Save All Changes": no error, every alias of the session
    is rewritten from its widgets or removed, in the session and in the
    dict handed to [save_saved_models]. *)
Lemma click_save_all_spec w (p : page) :
  session_ok (fine_tuned_models p) → fine_tuned_models p ≠ ∅ →
  ∃ session user,
    click_save_all w p
      = Returned (Page session
                    (save_saved_models user (store p)).1
                    (shown p ++ (load_saved_models (store p)).2
                       ++ (save_saved_models user (store p)).2
                       ++ [SuccessAllSaved]))
    ∧ (∀ alias, session !! alias
         = after_save_all w (fine_tuned_models p) (fine_tuned_models p)
                          alias)
    ∧ (∀ alias, user !! alias
         = after_save_all w (fine_tuned_models p)
                          (load_saved_models (store p)).1 alias).
Proof.
  intros Hok Hne. unfold click_save_all.
  rewrite bool_decide_eq_false_2 by done.
  destruct (render_manage_form_spec w _ Hok) as (upd & rem & -> & Hu & Hr).
  cbn [obind fst snd].
  destruct (save_all_changes_spec upd rem p)
    as (session & user & -> & Hs & Hd).
  assert (Hac : ∀ base alias,
            after_changes upd rem base alias
            = after_save_all w (fine_tuned_models p) base alias).
  { intros base alias. unfold after_changes, after_save_all.
    rewrite Hu. destruct (fine_tuned_models p !! alias) as [e|] eqn:E.
    - simpl. destruct (w_remove (w alias)) eqn:Ew.
      + rewrite decide_True; [done|]. apply Hr. split; [by eexists | done].
      + rewrite decide_False; [done|]. intros [_ ?]%Hr. congruence.
    - simpl. rewrite decide_False; [done|].
      intros [[? ?] _]%Hr. congruence. }
  exists session, user. split; [done|]. split; intros alias.
  - by rewrite Hs, Hac.
  - by rewrite Hd, Hac.
Qed.



Lemma add_update_session_ok alias_in id_in public_in (p : page) :
  session_ok (fine_tuned_models p) →
  session_ok (fine_tuned_models (add_update_model alias_in id_in public_in p)).
Proof.
  intros Hok. unfold add_update_model.
  destruct (_ && _); [|done].
  destruct (load_saved_models (store p)) as [user w1].
  destruct (save_saved_models _ _) as [d w2]. simpl.
  intros alias e. rewrite lookup_insert. case_decide.
  - intros [= <-]. by eexists.
  - apply Hok.
Qed.


(** ** The registry file after a save, and a repeated click *)

Lemma save_writable_store (m : models) (d : disk) :
  writable d = true →
  (save_saved_models m d).1 = Disk (JsonFile (JObj (JObj <$> m))) true.
Proof. intros Hw. unfold save_saved_models. by rewrite Hw. Qed.

Lemma save_unwritable_store (m : models) (d : disk) :
  writable d = false → (save_saved_models m d).1 = d.
Proof. intros Hw. by rewrite save_unwritable. Qed.






End RegistryFacts.

(* ===================================================================== *)
(** * 8. Facts about the heap model of the merge                          *)
(* ===================================================================== *)

Module HeapFacts.
Section DictObjects.
Context {V : Type}.
Import Heap Registry.

Lemma merge_block_spec (h : heap V) (pre user : loc) dpre duser :
  h !! pre = Some dpre → h !! user = Some duser →
  ∃ merged,
    merge_block h pre user
      = Some (<[merged := merge_models dpre duser]> h, merged)
    ∧ h !! merged = None.
Proof.
  intros Hpre Huser. unfold merge_block, py_dict. rewrite Hpre. simpl.
  set (merged := fresh (dom h)).
  assert (Hfresh : h !! merged = None).
  { apply not_elem_of_dom, is_fresh. }
  assert (Hne : merged ≠ user) by congruence.
  rewrite lookup_insert_ne, Huser by done. simpl.
  exists merged. split; [|done].
  assert (Hfold :
    map_fold (λ alias data_dict acc,
                h' ← acc; py_setitem h' merged alias data_dict)
             (Some (<[merged := dpre]> h)) duser
    = Some (<[merged := merge_models dpre duser]> h)).
  { apply (map_fold_weak_ind
             (λ r (u : gmap string V),
                r = Some (<[merged := merge_models dpre u]> h))).
    - unfold merge_models. by rewrite map_fold_empty.
    - intros i x u r Hi ->. simpl. unfold py_setitem.
      rewrite lookup_insert_eq. simpl. rewrite insert_insert_eq.
      do 2 f_equal. rewrite !RegistryFacts.merge_models_union.
      by rewrite insert_union_l. }
  by rewrite Hfold.
Qed.

End DictObjects.
End HeapFacts.

(* ===================================================================== *)
(** * 9. Facts about the JSONL builder                                    *)
(* ===================================================================== *)

Module BuilderFacts.
Import Builder PyStrFacts.

(** Induction on a Python value, with the hypothesis on every element
    of a list and every value of a dict. *)
Lemma pyobj_ind_nested (P : pyobj → Prop) :
  (∀ s, P (PStr s)) →
  (∀ l, Forall P l → P (PList l)) →
  (∀ items, Forall (λ kv, P (snd kv)) items → P (PDict items)) →
  ∀ v, P v.
Proof.
  intros Hs Hl Hd. fix IH 1. intros [s|l|items].
  - apply Hs.
  - apply Hl. induction l as [|x l IHl]; constructor; [apply IH | done].
  - apply Hd.
    induction items as [|[k x] items IHi]; constructor; [apply IH | done].
Qed.

Lemma printable_app (a b : string) :
  printable (a +:+ b) = printable a && printable b.
Proof.
  induction a as [|c r IH]; simpl; [done|].
  rewrite IH. by rewrite andb_assoc.
Qed.

Lemma printable_esc_char (c : ascii) : printable (esc_char c) = true.
Proof.
  destruct c as [b0 b1 b2 b3 b4 b5 b6 b7].
  destruct b0, b1, b2, b3, b4, b5, b6, b7; reflexivity.
Qed.

Lemma printable_esc (s : string) : printable (esc s) = true.
Proof.
  induction s as [|c r IH]; simpl; [done|].
  by rewrite printable_app, printable_esc_char, IH.
Qed.

Lemma printable_encode_str (s : string) : printable (encode_str s) = true.
Proof.
  unfold encode_str. change (String dq ?x) with (String dq "" +:+ x).
  by rewrite !printable_app, printable_esc.
Qed.

Lemma printable_concat (sep : string) (l : list string) :
  printable sep = true → Forall (λ x, printable x = true) l →
  printable (String.concat sep l) = true.
Proof.
  intros Hsep. induction 1 as [|x l Hx Hl IH]; simpl; [done|].
  destruct l as [|y l]; [done|].
  by rewrite !printable_app, Hx, Hsep, IH.
Qed.

(** [json.dumps] emits printable ASCII only. *)
Lemma printable_json_dumps (v : pyobj) : printable (json_dumps v) = true.
Proof.
  induction v as [s|l IH|items IH] using pyobj_ind_nested;
    cbn [json_dumps].
  - apply printable_encode_str.
  - rewrite !printable_app. rewrite printable_concat; [done|done|].
    by apply Forall_fmap.
  - rewrite !printable_app. rewrite printable_concat; [done|done|].
    apply Forall_fmap. eapply Forall_impl; [exact IH|].
    intros [k x] Hx. unfold compose. cbn [fst snd] in *.
    by rewrite !printable_app, printable_encode_str, Hx.
Qed.

Lemma printable_no_newline (s : string) :
  printable s = true → count_newlines s = 0.
Proof.
  induction s as [|c r IH]; cbn [printable count_newlines]; [done|].
  intros [[H1 H2]%andb_true_iff Hr]%andb_true_iff.
  rewrite IH by done. apply Nat.leb_le in H1.
  destruct (Nat.eqb_spec (nat_of_ascii c) 10); [lia | done].
Qed.

Lemma count_newlines_app (a b : string) :
  count_newlines (a +:+ b) = count_newlines a + count_newlines b.
Proof.
  induction a as [|c r IH]; simpl; [done|]. rewrite IH. lia.
Qed.

(** A record is written as exactly one line. *)
Lemma record_line_one (rec : string * string) :
  count_newlines (record_line rec) = 1.
Proof.
  unfold record_line.
  by rewrite count_newlines_app, printable_no_newline
    by apply printable_json_dumps.
Qed.

Lemma lines_text_count (recs : list (string * string)) :
  count_newlines (lines_text recs) = length recs.
Proof.
  induction recs as [|rec recs IH]; [done|].
  change (lines_text (rec :: recs))
    with (record_line rec +:+ lines_text recs).
  by rewrite count_newlines_app, record_line_one, IH.
Qed.

Lemma lines_text_app (a b : list (string * string)) :
  lines_text (a ++ b) = lines_text a +:+ lines_text b.
Proof.
  induction a as [|rec a IH]; [done|].
  change (lines_text ((rec :: a) ++ b))
    with (record_line rec +:+ lines_text (a ++ b)).
  change (lines_text (rec :: a)) with (record_line rec +:+ lines_text a).
  by rewrite IH, app_assoc.
Qed.

(** The selecting test, in words: the stored sender, trimmed and in
    lower case, is the lower case of some selected sender. *)
Lemma sender_selected_iff (selected_senders : list string) (r : row) :
  sender_selected (map PyStr.lower selected_senders) r = true
  ↔ ∃ s, s ∈ selected_senders
         ∧ PyStr.lower (PyStr.strip (get_or_empty r "Parsed From"))
           = PyStr.lower s.
Proof.
  unfold sender_selected. rewrite bool_decide_eq_true.
  change (map PyStr.lower selected_senders)
    with (PyStr.lower <$> selected_senders).
  rewrite list_elem_of_fmap. split; intros (s & ? & ?); by exists s.
Qed.

(** When it does not raise, [record_of] returns [rec_fields]. *)
Lemma record_of_returned (r : row) (rec : string * string) :
  record_of r = Returned rec → rec = rec_fields r.
Proof.
  unfold record_of, rec_fields, get_default_strip, get_or_empty.
  destruct (row_get r "Parsed Subject") as [[s|]|];
    destruct (row_get r "Parsed Body") as [[b|]|]; simpl;
    intros [= <-]; done.
Qed.

Lemma record_of_cells_ok (r : row) :
  cells_ok r ↔ record_of r = Returned (rec_fields r).
Proof.
  unfold cells_ok, record_of, rec_fields, get_default_strip, get_or_empty.
  destruct (row_get r "Parsed Subject") as [[s|]|];
    destruct (row_get r "Parsed Body") as [[b|]|]; simpl;
    split; try done; intros [? ?]; done.
Qed.

Lemma record_of_raises (r : row) :
  ¬ cells_ok r ↔ record_of r = Raised AttributeError.
Proof.
  unfold cells_ok, record_of, get_default_strip.
  destruct (row_get r "Parsed Subject") as [[s|]|];
    destruct (row_get r "Parsed Body") as [[b|]|]; simpl;
    split; try done; intros H; try (by destruct H);
    intros [? ?]; done.
Qed.

(** The loop: the records of a prefix of the selected rows are appended;
    the loop returns when that prefix is all of them, and otherwise
    raises at the first selected row with a [None] cell. *)
Lemma write_rows_spec lower_senders (all_rows : list row) f_out count :
  ∃ built,
    built `prefix_of` List.filter (sender_selected lower_senders) all_rows
    ∧ Forall cells_ok built
    ∧ (write_rows lower_senders all_rows f_out count).1
      = f_out +:+ lines_text (map rec_fields built)
    ∧ match (write_rows lower_senders all_rows f_out count).2 with
      | Returned n =>
          built = List.filter (sender_selected lower_senders) all_rows
          ∧ n = count + length built
      | Raised e =>
          e = AttributeError
          ∧ ∃ r, r ∈ List.filter (sender_selected lower_senders) all_rows
                 ∧ ¬ cells_ok r
      end.
Proof.
  revert f_out count.
  induction all_rows as [|r rows IH]; intros f_out count;
    cbn [write_rows List.filter].
  - exists []. split; [done|]. split; [constructor|].
    split; [by rewrite app_empty_r|]. cbn [snd length]. split; [done|lia].
  - destruct (sender_selected lower_senders r) eqn:Hsel.
    + destruct (record_of r) as [rec|e] eqn:Hrec.
      * pose proof (record_of_returned _ _ Hrec) as ->.
        apply record_of_cells_ok in Hrec.
        destruct (IH (f_out +:+ record_line (rec_fields r)) (S count))
          as (built & Hp & Hok & Hf & Hres).
        exists (r :: built). split; [by apply prefix_cons|].
        split; [by constructor|]. split.
        { rewrite Hf. by rewrite app_assoc. }
        destruct (write_rows _ _ _ _).2 as [n|e].
        -- destruct Hres as [-> ->]. split; [done|cbn [length]; lia].
        -- destruct Hres as (-> & r' & Hin & Hbad). split; [done|].
           exists r'. split; [by right | done].
      * exists []. split; [apply prefix_nil|]. split; [constructor|].
        cbn [fst snd map]. split; [by rewrite app_empty_r|].
        assert (e = AttributeError) as ->.
        { unfold record_of, get_default_strip in Hrec.
          destruct (row_get r "Parsed Subject") as [[?|]|];
            destruct (row_get r "Parsed Body") as [[?|]|];
            simpl in Hrec; congruence. }
        split; [done|]. exists r. split; [by left|].
        by apply record_of_raises.
    + destruct (IH f_out count) as (built & Hp & Hok & Hf & Hres).
      by exists built.
Qed.

(** With no [None] cell in a selected row the loop returns. *)
Lemma write_rows_total lower_senders (all_rows : list row) f_out count :
  Forall cells_ok (List.filter (sender_selected lower_senders) all_rows) →
  write_rows lower_senders all_rows f_out count
  = (f_out +:+ lines_text
                 (map rec_fields
                    (List.filter (sender_selected lower_senders) all_rows)),
     Returned
       (count
        + length (List.filter (sender_selected lower_senders) all_rows))).
Proof.
  intros Hok.
  destruct (write_rows_spec lower_senders all_rows f_out count)
    as (built & Hp & _ & Hf & Hres).
  destruct (write_rows _ _ _ _) as [text [n|e]]; simpl in *.
  - destruct Hres as [-> ->]. by rewrite Hf.
  - destruct Hres as (_ & r & Hin & Hbad). exfalso.
    apply Hbad. by eapply Forall_forall in Hok.
Qed.

End BuilderFacts.

(* ===================================================================== *)
(** * 10. Facts about the grouping of senders                             *)
(* ===================================================================== *)

Module SendersFacts.
Import Builder Senders PyStrFacts.

Lemma trimmed_first_name (s : string) :
  trimmed_nonempty s →
  get_first_name s = Returned (first_token s)
  ∧ (∃ more, PyStr.split s = first_token s :: more)
  ∧ first_token s ≠ "" ∧ PyStr.no_space (first_token s) = true.
Proof.
  intros [Hs Hne].
  assert (Hl : PyStr.lstrip s = s).
  { rewrite <- Hs at 2. rewrite <- (lstrip_strip s). by rewrite Hs. }
  destruct (split_trimmed s Hne Hl) as (fn & more & Hsp & Hfn & Hns).
  unfold get_first_name, first_token.
  rewrite (proj2 (truthy_true s) Hne), Hsp. simpl. eauto.
Qed.

Lemma members_of_snoc fn (senders : list string) (x : string) :
  members_of fn (senders ++ [x])
  = members_of fn senders ++ (if decide (first_token x = fn) then [x] else []).
Proof.
  unfold members_of. by rewrite filter_app.
Qed.

(** The grouping loop returns, and the group of a first name holds the
    senders that start with it, in order. *)
Lemma group_senders_spec (senders : list string) :
  Forall trimmed_nonempty senders →
  ∃ grouped,
    group_senders senders = Returned grouped
    ∧ ∀ fn, grouped !! fn = group_of fn senders.
Proof.
  unfold group_senders.
  induction senders as [|x l IH] using rev_ind; intros Hall.
  - exists ∅. split; [done|]. intros fn. by rewrite lookup_empty.
  - apply Forall_app in Hall as [Hl Hx]. apply Forall_inv in Hx.
    destruct (IH Hl) as (g & Hg & Hlook).
    destruct (trimmed_first_name x Hx) as (Hfirst & _).
    rewrite foldl_snoc, Hg. unfold group_step. cbn [obind].
    rewrite Hfirst. cbn [obind].
    set (fn0 := first_token x).
    exists (<[fn0 := default [] (g !! fn0) ++ [x]]> g). split.
    + destruct (g !! fn0) as [full|] eqn:E.
      * by rewrite E.
      * by rewrite lookup_insert_eq, insert_insert_eq.
    + intros fn. unfold group_of. rewrite members_of_snoc.
      pose proof (Hlook fn) as Hfn. unfold group_of in Hfn.
      fold fn0. destruct (decide (fn0 = fn)) as [<-|Hne].
      * rewrite lookup_insert_eq, Hfn.
        by destruct (members_of fn0 l).
      * rewrite lookup_insert_ne, app_nil_r by done. exact Hfn.
Qed.

Lemma group_of_Some fn (senders members : list string) :
  group_of fn senders = Some members →
  members = members_of fn senders ∧ members ≠ [].
Proof.
  unfold group_of. destruct (members_of fn senders); [done|].
  by intros [= <-].
Qed.

Lemma members_of_elem fn (senders : list string) s :
  s ∈ members_of fn senders ↔ first_token s = fn ∧ s ∈ senders.
Proof. unfold members_of. by rewrite list_elem_of_filter. Qed.

(** The display loop returns one choice per group. *)
Lemma display_fold (items : list (string * list string)) :
  Forall (λ kv, snd kv ≠ []) items →
  ∃ disp,
    foldr (λ kv acc,
             let! d := display_choice (fst kv) (snd kv) in
             let! ds := acc in
             Returned (d :: ds))
          (Returned []) items = Returned disp
    ∧ Forall2 (λ kv d, display_choice (fst kv) (snd kv) = Returned d)
              items disp.
Proof.
  induction 1 as [|[fn ms] items Hne _ (disp & Hd & Hall)]; cbn [foldr].
  - by exists [].
  - assert (∃ d, display_choice fn ms = Returned d) as [d Hd'].
    { unfold display_choice. destruct (1 <? length ms)%nat; [by eexists|].
      destruct ms; [done | by eexists]. }
    exists (d :: disp). cbn [fst snd]. rewrite Hd', Hd. cbn [obind].
    split; [done | by constructor].
Qed.

Lemma endswith_all_variations (fn : string) :
  PyStr.endswith (fn +:+ " " +:+ all_variations) all_variations = true.
Proof. rewrite <- app_assoc. apply endswith_app. Qed.

Lemma split_all_variations (fn : string) :
  fn ≠ "" → PyStr.no_space fn = true →
  ∃ more, PyStr.split (fn +:+ " " +:+ all_variations) = fn :: more.
Proof.
  intros Hne Hns. eexists.
  change (" " +:+ all_variations) with (String " " all_variations).
  by apply split_first_app.
Qed.

End SendersFacts.

(* ===================================================================== *)
(** * 10b. Reading back the JSON text of a record                         *)
(* ===================================================================== *)

Module JsonTextFacts.
Import Builder BuilderFacts JsonText PyStrFacts.


Lemma read_chars_esc_char (c : ascii) (t : string) :
  read_chars (esc_char c +:+ t)
  = match read_chars t with
    | Some (body, rest) => Some (String c body, rest)
    | None => None
    end.
Proof.
  destruct c as [b0 b1 b2 b3 b4 b5 b6 b7].
  destruct b0, b1, b2, b3, b4, b5, b6, b7; reflexivity.
Qed.

Lemma read_chars_esc (s rest : string) :
  read_chars (esc s +:+ String dq rest) = Some (s, rest).
Proof.
  induction s as [|c r IH]; cbn [esc].
  - reflexivity.
  - by rewrite app_assoc, read_chars_esc_char, IH.
Qed.

Lemma read_value_space (fuel : nat) (t : string) :
  read_value fuel (String " " t) = read_value fuel t.
Proof. by destruct fuel. Qed.

Lemma read_elements_space (fuel : nat) (t : string) :
  read_elements fuel (String " " t) = read_elements fuel t.
Proof.
  destruct fuel as [|fuel]; [done|].
  cbn [read_elements]. by rewrite read_value_space.
Qed.

Lemma read_members_space (fuel : nat) (t : string) :
  read_members fuel (String " " t) = read_members fuel t.
Proof. by destruct fuel. Qed.

(** A string literal. *)
Lemma read_value_str (fuel : nat) (s rest : string) :
  read_value (S fuel) (encode_str s +:+ rest) = Some (PStr s, rest).
Proof.
  unfold encode_str. cbn [String.append]. rewrite app_assoc.
  cbn [String.append].
  change (read_value (S fuel) (String dq ?t))
    with (match read_chars t with
          | Some (body, rest) => Some (PStr body, rest)
          | None => None
          end).
  by rewrite read_chars_esc.
Qed.

(** The key of an object member and its colon. *)
Lemma read_members_key (fuel : nat) (key t : string) :
  read_members (S fuel) (encode_str key +:+ String ":" (String " " t))
  = match read_value fuel t with
    | None => None
    | Some (v, rest1) =>
        match skip_ws rest1 with
        | EmptyString => None
        | String c2 r2 =>
            if (nat_of_ascii c2 =? 44)%nat then
              match read_members fuel r2 with
              | Some (items, rest2) => Some ((key, v) :: items, rest2)
              | None => None
              end
            else if (nat_of_ascii c2 =? 125)%nat then Some ([(key, v)], r2)
            else None
        end
    end.
Proof.
  unfold encode_str. cbn [String.append]. rewrite app_assoc.
  cbn [String.append]. cbn [read_members].
  change (skip_ws (String dq ?r)) with (String dq r).
  change (nat_of_ascii dq =? 34)%nat with true. cbn match.
  rewrite read_chars_esc.
  change (skip_ws (String ":" ?r)) with (String ":" r).
  change (nat_of_ascii ":" =? 58)%nat with true. cbn match.
  by rewrite read_value_space.
Qed.

(** An object member followed by a comma, and the last member. *)
Lemma read_members_more (fuel : nat) (key : string) (v : pyobj)
    (t t2 : string) :
  read_value fuel t = Some (v, String "," (String " " t2)) →
  read_members (S fuel) (encode_str key +:+ String ":" (String " " t))
  = match read_members fuel t2 with
    | Some (items, rest) => Some ((key, v) :: items, rest)
    | None => None
    end.
Proof.
  intros Hv. rewrite read_members_key, Hv.
  change (skip_ws (String "," ?r)) with (String "," r).
  change (nat_of_ascii "," =? 44)%nat with true. cbn match.
  by rewrite read_members_space.
Qed.

Lemma read_members_last (fuel : nat) (key : string) (v : pyobj)
    (t rest : string) :
  read_value fuel t = Some (v, String "}" rest) →
  read_members (S fuel) (encode_str key +:+ String ":" (String " " t))
  = Some ([(key, v)], rest).
Proof. intros Hv. by rewrite read_members_key, Hv. Qed.

(** An array element followed by a comma, and the last element. *)
Lemma read_elements_more (fuel : nat) (v : pyobj) (t t2 : string) :
  read_value fuel t = Some (v, String "," (String " " t2)) →
  read_elements (S fuel) t
  = match read_elements fuel t2 with
    | Some (l, rest) => Some (v :: l, rest)
    | None => None
    end.
Proof.
  intros Hv. cbn [read_elements]. rewrite Hv.
  change (skip_ws (String "," ?r)) with (String "," r).
  change (nat_of_ascii "," =? 44)%nat with true. cbn match.
  by rewrite read_elements_space.
Qed.

Lemma read_elements_last (fuel : nat) (v : pyobj) (t rest : string) :
  read_value fuel t = Some (v, String "]" rest) →
  read_elements (S fuel) t = Some ([v], rest).
Proof. intros Hv. cbn [read_elements]. by rewrite Hv. Qed.

(** One message dict. *)
Lemma read_value_message (fuel : nat) (role content rest : string) :
  read_value (4 + fuel) (json_dumps (message role content) +:+ rest)
  = Some (message role content, rest).
Proof.
  unfold message. cbn [json_dumps map String.concat fst snd Nat.add].
  rewrite !app_assoc. cbn [String.append].
  change (read_value (S ?f) (String "{" ?t))
    with (match read_members f t with
          | Some (items, rest) => Some (PDict items, rest)
          | None => None
          end).
  erewrite read_members_more by apply read_value_str.
  erewrite read_members_last by apply read_value_str.
  reflexivity.
Qed.

(** One record line. *)
Lemma read_value_data_line (fuel : nat) (subject body rest : string) :
  read_value (9 + fuel) (json_dumps (data_line subject body) +:+ rest)
  = Some (data_line subject body, rest).
Proof.
  unfold data_line.
  cbn [json_dumps map String.concat fst snd Nat.add].
  fold (json_dumps (message "user" (user_content subject))).
  fold (json_dumps (message "assistant" body)).
  rewrite !app_assoc. cbn [String.append].
  change (read_value (S ?f) (String "{" ?t))
    with (match read_members f t with
          | Some (items, rest) => Some (PDict items, rest)
          | None => None
          end).
  erewrite read_members_last; [reflexivity|].
  change (read_value (S ?f) (String "[" ?t))
    with (match read_elements f t with
          | Some (l, rest) => Some (PList l, rest)
          | None => None
          end).
  erewrite read_elements_more by apply (read_value_message (S fuel)).
  erewrite read_elements_last by apply (read_value_message fuel).
  reflexivity.
Qed.

Lemma data_line_length (subject body : string) :
  9 ≤ String.length (json_dumps (data_line subject body)).
Proof.
  unfold data_line. cbn [json_dumps map String.concat fst snd].
  rewrite !app_assoc. cbn [String.append String.length].
  rewrite app_length.
  assert (String.length (encode_str "messages") = 10) as -> by reflexivity.
  lia.
Qed.

(** [json.dumps] of a record is a JSON text, and it denotes the
    record. *)
Lemma json_loads_data_line (subject body : string) :
  json_loads (json_dumps (data_line subject body))
  = Some (data_line subject body).
Proof.
  unfold json_loads.
  pose proof (data_line_length subject body) as Hlen.
  replace (String.length (json_dumps (data_line subject body)))
    with (9 + (String.length (json_dumps (data_line subject body)) - 9))
    by lia.
  rewrite <- (app_empty_r (json_dumps _)) at 2.
  by rewrite read_value_data_line.
Qed.

(** The text of the records, line by line. *)
Lemma lines_text_lines (recs : list (string * string)) :
  lines_text recs
  = foldr (λ line text, line +:+ String "010" "" +:+ text) ""
          (map (λ rec, json_dumps (data_line rec.1 rec.2)) recs).
Proof.
  induction recs as [|rec recs IH]; [done|].
  change (lines_text (rec :: recs)) with (record_line rec +:+ lines_text recs).
  cbn [map foldr]. rewrite <- IH. unfold record_line.
  by rewrite app_assoc.
Qed.

End JsonTextFacts.

(* ===================================================================== *)
(** * 11. The training-set builder: selection, output, totality           *)
(* ===================================================================== *)

Module BuilderClaims.
Import Builder BuilderFacts PyStrFacts JsonText JsonTextFacts.

Lemma selected_rows_elem selected_senders (all_rows : list row) r :
  r ∈ selected_rows selected_senders all_rows
  ↔ r ∈ all_rows
    ∧ ∃ s, s ∈ selected_senders
           ∧ PyStr.lower (PyStr.strip (get_or_empty r "Parsed From"))
             = PyStr.lower s.
Proof.
  unfold selected_rows.
  rewrite !list_elem_of_In, filter_In, sender_selected_iff.
  by setoid_rewrite list_elem_of_In.
Qed.

Lemma build_spec all_rows selected_senders output_jsonl (fs : files) :
  ∃ built,
    built `prefix_of` selected_rows selected_senders all_rows
    ∧ Forall cells_ok built
    ∧ (build_jsonl_for_senders all_rows selected_senders output_jsonl fs).1
      = <[output_jsonl := lines_text (map rec_fields built)]> fs
    ∧ match (build_jsonl_for_senders all_rows selected_senders
               output_jsonl fs).2 with
      | Returned n =>
          built = selected_rows selected_senders all_rows
          ∧ n = length built
      | Raised e =>
          e = AttributeError
          ∧ ∃ r, r ∈ selected_rows selected_senders all_rows ∧ ¬ cells_ok r
      end.
Proof.
  unfold build_jsonl_for_senders, selected_rows.
  destruct (write_rows_spec (map PyStr.lower selected_senders) all_rows "" 0)
    as (built & Hp & Hok & Hf & Hres).
  destruct (write_rows _ _ _ _) as [text res]. cbn [fst snd] in *.
  exists built. split; [done|]. split; [done|]. split.
  - by rewrite Hf.
  - destruct res; [|done]. destruct Hres as [-> ->]. by split.
Qed.

(** C1 (as amended). The builder selects exactly the rows whose stored
    sender, trimmed of whitespace and lower-cased, equals the lower case
    of some selected sender: the comparison ignores case on both sides
    and trims the stored value only. When no selected row has a [None]
    subject or body, it writes the records of exactly these rows and
    returns their number. A selected sender that carries surrounding
    whitespace is compared as it is and matches no row. Selecting
    ["ALICE"] matches a row whose sender is ["alice "]. *)
Theorem build_selects_matching_senders
    (all_rows : list row) (selected_senders : list string)
    (output_jsonl : string) (fs : files)
    (Hcells : Forall cells_ok (selected_rows selected_senders all_rows)) :
  (∀ r, r ∈ selected_rows selected_senders all_rows
        ↔ r ∈ all_rows
          ∧ ∃ s, s ∈ selected_senders
                 ∧ PyStr.lower (PyStr.strip (get_or_empty r "Parsed From"))
                   = PyStr.lower s)
  ∧ build_jsonl_for_senders all_rows selected_senders output_jsonl fs
    = (<[output_jsonl :=
           lines_text (map rec_fields
                         (selected_rows selected_senders all_rows))]> fs,
       Returned (length (selected_rows selected_senders all_rows)))
  ∧ (∀ s r, s ∈ selected_senders → PyStr.strip s ≠ s →
            PyStr.lower (PyStr.strip (get_or_empty r "Parsed From"))
            ≠ PyStr.lower s)
  ∧ sender_selected (map PyStr.lower ["ALICE"])
      (dict_row mail_header ["alice "; "Hi"; "Hello"]) = true.
Proof.
  split; [apply selected_rows_elem|]. split; [|split].
  - unfold build_jsonl_for_senders.
    rewrite write_rows_total by exact Hcells. done.
  - intros s r _ Hs Heq. apply Hs.
    eapply lower_eq_trimmed; [|exact Heq]. apply strip_idem.
  - vm_compute. reflexivity.
Qed.

Lemma build_selects_matching_senders_witness :
  let rows := [dict_row mail_header ["alice "; "Hi"; "Hello there"];
               dict_row mail_header ["Bob"; "X"; "Y"]] in
  Forall cells_ok (selected_rows ["ALICE"] rows)
  ∧ (build_jsonl_for_senders rows ["ALICE"] "filtered_data.jsonl" ∅).2
    = Returned 1.
Proof.
  intros rows.
  assert (Hc : Forall cells_ok (selected_rows ["ALICE"] rows)).
  { apply Forall_forall. intros r Hr. split; intros Hn;
      vm_compute in Hr; apply list_elem_of_In in Hr;
      destruct Hr as [<-|[]]; vm_compute in Hn; discriminate. }
  split; [exact Hc|].
  rewrite (proj1 (proj2 (build_selects_matching_senders
                           rows ["ALICE"] "filtered_data.jsonl" ∅ Hc))).
  vm_compute. reflexivity.
Defined.

(** C1, the claim as stated fails: after trimming both sides the row's
    sender matches the selected [" alice "], yet the builder selects
    nothing. *)
Lemma untrimmed_selection_not_matched :
  let r := dict_row mail_header ["alice"; "Hi"; "Hello there"] in
  (∃ s, s ∈ [" alice "]
        ∧ PyStr.lower (PyStr.strip (get_or_empty r "Parsed From"))
          = PyStr.lower (PyStr.strip s))
  ∧ selected_rows [" alice "] [r] = []
  ∧ (build_jsonl_for_senders [r] [" alice "] "filtered_data.jsonl" ∅).2
    = Returned 0.
Proof.
  intros r. split; [|split].
  - exists " alice ". split; [by left|]. vm_compute. reflexivity.
  - vm_compute. reflexivity.
  - vm_compute. reflexivity.
Qed.

(** C4. A short CSV line makes [csv.DictReader] store [None] under the
    missing columns; on such a selected row the builder raises
    [AttributeError] instead of defaulting the field to the empty
    string. *)
Theorem build_raises_on_short_row :
  let upload := Upload "mail.csv" [Cells mail_header; Cells ["Alice"]] in
  let rows := (read_rows_from_multiple_csvs [upload]).1 in
  (read_rows_from_multiple_csvs [upload]).2 = []
  ∧ rows = [dict_row mail_header ["Alice"]]
  ∧ Forall (λ r, row_get r "Parsed From" = Some (Some "Alice")
                 ∧ row_get r "Parsed Subject" = Some None
                 ∧ row_get r "Parsed Body" = Some None) rows
  ∧ (build_jsonl_for_senders rows ["Alice"] "filtered_data.jsonl" ∅).2
    = Raised AttributeError.
Proof.
  intros upload rows. split; [reflexivity|]. split; [reflexivity|].
  split.
  - repeat constructor; vm_compute; reflexivity.
  - vm_compute. reflexivity.
Qed.

(** The two rows of the specification with ["alice"] selected: one line,
    for Alice's row. *)
Example build_alice_line :
  let rows := [dict_row mail_header ["Alice"; "Hi"; "Hello there"];
               dict_row mail_header ["Bob"; "X"; "Y"]] in
  ∃ line,
    build_jsonl_for_senders rows ["alice"] "filtered_data.jsonl" ∅
    = ({["filtered_data.jsonl" := line +:+ String "010" ""]}, Returned 1)
    ∧ json_loads line
      = Some
          (PDict
             [("messages",
               PList
                 [PDict
                    [("role", PStr "user");
                     ("content",
                      PStr ("Subject: Hi" +:+ String "010" ""
                            +:+ "Please respond with the email body style."))];
                  PDict
                    [("role", PStr "assistant");
                     ("content", PStr "Hello there")]])]).
Proof.
  intros rows. eexists (json_dumps (data_line "Hi" "Hello there")).
  split; vm_compute; reflexivity.
Qed.

(** C6. For every row list and selection the output file is replaced,
    whatever it held, by one line per built record, each ended by a line
    feed, in the order of the selected input rows: the records are those
    of a prefix of the selected rows, all of them when the builder
    returns, and then the returned count is the number of lines. The
    builder returns unless a selected row holds [None] as subject or
    body. Each line has no line feed inside and is a JSON text: read by
    the JSON grammar it is an object whose [messages] array has exactly
    two elements, first [{role: user}] with the content
    [Subject: <subject>], a line feed and
    [Please respond with the email body style.], then
    [{role: assistant}] with the body, subject and body being the row's
    cells trimmed of whitespace (the empty string for a missing column).
    The builder takes no system message, so no line has three. *)
Theorem build_output_one_line_per_record
    (all_rows : list row) (selected_senders : list string)
    (output_jsonl : string) (fs : files) :
  ∃ (built : list row) (lines : list string),
    built `prefix_of` selected_rows selected_senders all_rows
    ∧ (build_jsonl_for_senders all_rows selected_senders output_jsonl fs).1
      = <[output_jsonl :=
            foldr (λ line text, line +:+ String "010" "" +:+ text) "" lines]>
          fs
    ∧ count_newlines
        (foldr (λ line text, line +:+ String "010" "" +:+ text) "" lines)
      = length lines
    ∧ match (build_jsonl_for_senders all_rows selected_senders
               output_jsonl fs).2 with
      | Returned count =>
          built = selected_rows selected_senders all_rows
          ∧ count = length lines
      | Raised e =>
          e = AttributeError
          ∧ ∃ r, r ∈ selected_rows selected_senders all_rows ∧ ¬ cells_ok r
      end
    ∧ Forall2
        (λ r line,
           count_newlines line = 0
           ∧ ∃ subject body,
               (row_get r "Parsed Subject" = Some (Some subject)
                ∨ row_get r "Parsed Subject" = None ∧ subject = "")
               ∧ (row_get r "Parsed Body" = Some (Some body)
                  ∨ row_get r "Parsed Body" = None ∧ body = "")
               ∧ json_loads line
                 = Some
                     (PDict
                        [("messages",
                          PList
                            [PDict
                               [("role", PStr "user");
                                ("content",
                                 PStr ("Subject: " +:+ PyStr.strip subject
                                       +:+ String "010" ""
                                       +:+ "Please respond with the email body style."))];
                             PDict
                               [("role", PStr "assistant");
                                ("content", PStr (PyStr.strip body))]])]))
        built lines.
Proof.
  destruct (build_spec all_rows selected_senders output_jsonl fs)
    as (built & Hp & Hok & Hf & Hres).
  exists built,
    (map (λ rec, json_dumps (data_line rec.1 rec.2)) (map rec_fields built)).
  split; [done|]. split; [by rewrite Hf, lines_text_lines|].
  split.
  { rewrite <- lines_text_lines, lines_text_count. by rewrite !length_map. }
  split.
  { destruct (build_jsonl_for_senders _ _ _ _).2; [|done].
    destruct Hres as [-> ->]. by rewrite !length_map. }
  clear Hp Hf Hres.
  induction Hok as [|r built Hr _ IH]; [constructor|].
  cbn [map]. constructor; [|exact IH]. split.
  { apply printable_no_newline, printable_json_dumps. }
  destruct Hr as [Hs Hb]. unfold rec_fields, get_or_empty. cbn [fst snd].
  destruct (row_get r "Parsed Subject") as [[subject|]|] eqn:Es; [|done|];
    destruct (row_get r "Parsed Body") as [[body|]|] eqn:Eb; try done.
  - exists subject, body. split; [by left|]. split; [by left|].
    apply json_loads_data_line.
  - exists subject, "". split; [by left|]. split; [by right|].
    apply json_loads_data_line.
  - exists "", body. split; [by right|]. split; [by left|].
    apply json_loads_data_line.
  - exists "", "". split; [by right|]. split; [by right|].
    apply json_loads_data_line.
Qed.

End BuilderClaims.

(* ===================================================================== *)
(** * 12. The model registry: load, merge, upsert, remove, bulk save      *)
(* ===================================================================== *)

Module RegistryClaims.
Import Registry RegistryFacts.

Example public_models_legacy :
  public_models {["m1" := JStr "ft:abc"]}
  = Returned {["m1" := JStr "ft:abc"]}.
Proof. vm_compute. reflexivity. Qed.

Example public_models_missing_id :
  public_models {["bad" := JObj {["public" := JBool true]}]}
  = Raised KeyError.
Proof. vm_compute. reflexivity. Qed.

(** C2 (as amended). In the admin application, loading a registry file
    that holds a mapping turns a bare string into
    [{id: <string>, public: true}], drops a dict without [id], adds
    [public: true] to a dict without [public] and keeps any other dict
    with an [id] as it is. The public application's load returns the
    stored mapping without normalising it. *)
Theorem load_normalizes_admin_only
    (data : gmap string json) (can_write : bool) (alias : string) :
  let d := Disk (JsonFile (JObj data)) can_write in
  (∀ s, data !! alias = Some (JStr s) →
        (load_saved_models d).1 !! alias = Some (mk_entry s true))
  ∧ (∀ val, data !! alias = Some (JObj val) → val !! "id" = None →
            (load_saved_models d).1 !! alias = None)
  ∧ (∀ val, data !! alias = Some (JObj val) → is_Some (val !! "id") →
            val !! "public" = None →
            (load_saved_models d).1 !! alias
            = Some (<["public" := JBool true]> val))
  ∧ (∀ val, data !! alias = Some (JObj val) → is_Some (val !! "id") →
            is_Some (val !! "public") →
            (load_saved_models d).1 !! alias = Some val)
  ∧ (load_saved_models_public d).1 = data.
Proof.
  intros d. unfold load_saved_models. cbn [d content fst].
  rewrite lookup_omap.
  split; [|split; [|split; [|split]]].
  - by intros s ->.
  - intros val -> Hid. simpl. by rewrite Hid.
  - intros val -> [i Hid] Hp. simpl. by rewrite Hid, Hp.
  - intros val -> [i Hid] [pb Hp]. simpl. by rewrite Hid, Hp.
  - done.
Qed.

(** C2, the claim as stated fails for the public application: its load
    hands back the legacy string, not [{id: "ft:abc", public: true}]. *)
Lemma public_load_keeps_legacy_string :
  let d := Disk (JsonFile (JObj {["m1" := JStr "ft:abc"]})) true in
  (load_saved_models_public d).1 !! "m1" = Some (JStr "ft:abc")
  ∧ (load_saved_models_public d).1 !! "m1"
    ≠ Some (JObj (mk_entry "ft:abc" true))
  ∧ (load_saved_models d).1 !! "m1" = Some (mk_entry "ft:abc" true).
Proof.
  intros d. split; [|split].
  - vm_compute. reflexivity.
  - vm_compute. discriminate.
  - vm_compute. reflexivity.
Qed.

(** C3. The merged view maps an alias to the user-store entry when there
    is one and to the builtin entry otherwise; the user entry replaces the
    builtin one as a whole. Block B builds the session's view this way.
    On the heap, the merge fills a newly allocated dict: every object
    that existed before, [PRE_CREATED_MODELS] included, is unchanged. *)
Theorem merged_view_user_overrides_builtin :
  (∀ (builtin user : models) alias,
     merge_models builtin user !! alias
     = match user !! alias with
       | Some data_dict => Some data_dict
       | None => builtin !! alias
       end)
  ∧ merge_models {["m1" := mk_entry "A" true]}
                 {["m1" := mk_entry "B" false]}
    = {["m1" := mk_entry "B" false]}
  ∧ (∀ d, fine_tuned_models (start None d)
          = merge_models PRE_CREATED_MODELS (load_saved_models d).1)
  ∧ (∀ (h : Heap.heap entry) pre user dpre duser,
       h !! pre = Some dpre → h !! user = Some duser →
       ∃ h' merged,
         Heap.merge_block h pre user = Some (h', merged)
         ∧ h !! merged = None
         ∧ h' !! merged = Some (merge_models dpre duser)
         ∧ h' !! pre = Some dpre
         ∧ ∀ l, is_Some (h !! l) → h' !! l = h !! l).
Proof.
  split; [|split; [|split]].
  - intros. apply merge_models_lookup.
  - apply map_eq. intros alias. rewrite merge_models_lookup.
    destruct (decide (alias = "m1")) as [->|Hne].
    + by rewrite !lookup_singleton_eq.
    + by rewrite !lookup_singleton_ne.
  - intros d. unfold start. by destruct (load_saved_models d).
  - intros h pre user dpre duser Hpre Huser.
    destruct (HeapFacts.merge_block_spec h pre user dpre duser Hpre Huser)
      as (merged & Hm & Hfresh).
    exists (<[merged := merge_models dpre duser]> h), merged.
    split; [done|]. split; [done|]. split; [apply lookup_insert_eq|].
    assert (Hframe : ∀ l, is_Some (h !! l) →
              <[merged := merge_models dpre duser]> h !! l = h !! l).
    { intros l [x Hl]. apply lookup_insert_ne. congruence. }
    split; [|done]. rewrite Hframe; [done | by eexists].
Qed.

(** C5 (as amended). For every upsert whose alias and id are non-empty
    after trimming whitespace, the merged view maps the alias, as typed,
    to the new [{id, public}] entry at once, and when the save writes the
    file, loading the store afterwards yields that entry under the
    alias. *)
Theorem upsert_reflected_and_round_trips
    (alias_in id_in : string) (public_in : bool) (p : page)
    (Halias : PyStr.strip alias_in ≠ "") (Hid : PyStr.strip id_in ≠ "") :
  let p' := add_update_model alias_in id_in public_in p in
  fine_tuned_models p' !! alias_in = Some (mk_entry id_in public_in)
  ∧ (writable (store p) = true →
     (load_saved_models (store p')).1 !! alias_in
     = Some (mk_entry id_in public_in)).
Proof.
  intros p'. subst p'. unfold add_update_model.
  rewrite (proj2 (PyStrFacts.truthy_true _) Halias).
  rewrite (proj2 (PyStrFacts.truthy_true _) Hid). cbn [andb].
  destruct (load_saved_models (store p)) as [user w1].
  destruct (save_saved_models _ _) as [d w2] eqn:Hsave. cbn [fine_tuned_models store].
  split; [apply lookup_insert_eq|].
  intros Hw.
  change d with (d, w2).1. rewrite <- Hsave.
  apply load_after_save_normalized; [done | apply lookup_insert_eq|].
  apply mk_entry_normalized.
Qed.

Lemma upsert_reflected_and_round_trips_witness :
  let p := start None fresh_disk in
  PyStr.strip " mine " ≠ "" ∧ PyStr.strip "ft:x" ≠ ""
  ∧ writable (store p) = true
  ∧ (load_saved_models (store (add_update_model " mine " "ft:x" false p))).1
      !! " mine " = Some (mk_entry "ft:x" false).
Proof.
  intros p.
  assert (Ha : PyStr.strip " mine " ≠ "") by (vm_compute; discriminate).
  assert (Hi : PyStr.strip "ft:x" ≠ "") by (vm_compute; discriminate).
  split; [exact Ha|]. split; [exact Hi|]. split; [reflexivity|].
  apply (upsert_reflected_and_round_trips " mine " "ft:x" false p Ha Hi).
  reflexivity.
Defined.

(** C5, the claim as stated fails: the alias [" "] and the id ["ft:x"]
    are both non-empty, yet the upsert is rejected and neither the merged
    view nor the store holds the entry. *)
Lemma blank_alias_upsert_rejected :
  let p := start None fresh_disk in
  let p' := add_update_model " " "ft:x" true p in
  " " ≠ "" ∧ "ft:x" ≠ ""
  ∧ fine_tuned_models p' !! " " = None
  ∧ (load_saved_models (store p')).1 !! " " = None
  ∧ shown p' = [WarnProvideBoth].
Proof.
  intros p p'. split; [discriminate|]. split; [discriminate|].
  split; [|split]; vm_compute; reflexivity.
Qed.

(** C7. An upsert whose alias or id is empty after trimming is rejected:
    a warning is shown, and the merged view and the store are the ones
    from before. *)
Theorem empty_upsert_rejected
    (alias_in id_in : string) (public_in : bool) (p : page)
    (Hempty : PyStr.strip alias_in = "" ∨ PyStr.strip id_in = "") :
  add_update_model alias_in id_in public_in p
  = Page (fine_tuned_models p) (store p) (shown p ++ [WarnProvideBoth]).
Proof.
  unfold add_update_model.
  destruct Hempty as [H|H]; apply PyStrFacts.truthy_false in H; rewrite H.
  - done.
  - by rewrite andb_false_r.
Qed.

Lemma empty_upsert_rejected_witness :
  let p := start None fresh_disk in
  (PyStr.strip "  " = "" ∨ PyStr.strip "ft:x" = "")
  ∧ fine_tuned_models (add_update_model "  " "ft:x" true p)
    = fine_tuned_models p
  ∧ store (add_update_model "  " "ft:x" true p) = store p.
Proof.
  intros p.
  assert (H : PyStr.strip "  " = "" ∨ PyStr.strip "ft:x" = "")
    by (left; reflexivity).
  split; [exact H|].
  rewrite (empty_upsert_rejected "  " "ft:x" true p H). split; reflexivity.
Defined.






(** An entry stored with a null [id] is drawn with an empty id box that
    returns [None], and is saved with a null [id] again. *)
Example bulk_save_keeps_null_id :
  let stored : gmap string json := {["draft" := JObj {["id" := JNull]}]} in
  let p := start None (Disk (JsonFile (JObj stored)) true) in
  let w : string → widget := λ alias,
    if String.eqb alias "draft" then Widget None true false
    else Widget (Some "ft:x") true true in
  fine_tuned_models p !! "draft"
  = Some (<["public" := JBool true]> {["id" := JNull]})
  ∧ ∃ p', click_save_all w p = Returned p'
          ∧ content (store p')
            = JsonFile
                (JObj {["draft" :=
                          JObj (<["id" := JNull]>
                                  (<["public" := JBool true]> ∅))]}).
Proof.
  intros stored p w. split; [vm_compute; reflexivity|].
  eexists. split; vm_compute; reflexivity.
Qed.


End RegistryClaims.

(* ===================================================================== *)
(** * 13. Senders: grouping by first name and the choices shown           *)
(* ===================================================================== *)

Module SendersClaims.
Import Builder Senders SendersFacts PyStrFacts.

(** The senders the grouping receives are distinct, trimmed and not
    empty. *)
Lemma distinct_senders_wf (all_rows : list row) :
  NoDup (distinct_senders all_rows)
  ∧ Forall trimmed_nonempty (distinct_senders all_rows).
Proof.
  unfold distinct_senders.
  set (step := λ (senders : gset string) (r : row), _).
  assert (Hinv : ∀ rows (acc : gset string),
            (∀ x, x ∈ acc → trimmed_nonempty x) →
            ∀ x, x ∈ foldl step acc rows → trimmed_nonempty x).
  { induction rows as [|r rows IH]; intros acc Hacc; [done|].
    cbn [foldl]. apply IH. unfold step.
    destruct (PyStr.truthy _) eqn:E; [|done].
    intros x [Hx|Hx%elem_of_singleton]%elem_of_union; [by apply Hacc|].
    subst x. split; [apply strip_idem | by apply truthy_true]. }
  split.
  - rewrite sorted_perm. apply NoDup_elements.
  - rewrite sorted_perm. apply Forall_forall. intros x Hx.
    apply elem_of_elements in Hx. by eapply (Hinv all_rows ∅).
Qed.

Lemma Forall2_elem_l {A B} (R : A → B → Prop) (l : list A) (k : list B) x :
  Forall2 R l k → x ∈ l → ∃ y, y ∈ k ∧ R x y.
Proof.
  induction 1 as [|a b l k Hab _ IH]; intros Hx.
  - by apply not_elem_of_nil in Hx.
  - apply elem_of_cons in Hx as [->|Hx].
    + exists b. split; [by left | done].
    + destruct (IH Hx) as (y & Hy & HR). exists y. split; [by right|done].
Qed.

(** C9. For every list of distinct senders, each trimmed and not empty
    (what lines 391-396 produce), the grouping returns a dict that
    partitions the senders by their first whitespace-delimited token:
    the group of a token holds exactly the senders that start with it.
    One choice is shown per group. A group of more than one sender is
    shown as the single choice [<token> (All variations)], and selecting
    that choice expands to exactly the members of the group; a group of
    one sender is shown as that sender, and selecting it yields that
    sender. *)
Theorem group_by_first_token_choices (senders : list string)
    (Hdistinct : NoDup senders)
    (Htrim : Forall trimmed_nonempty senders) :
  ∃ grouped disp,
    group_senders senders = Returned grouped
    ∧ display_senders grouped = Returned disp
    ∧ (∀ fn, grouped !! fn = group_of fn senders)
    ∧ (∀ s, s ∈ senders →
            ∃ members, grouped !! first_token s = Some members
                       ∧ s ∈ members)
    ∧ length disp = size grouped
    ∧ ∀ fn members,
        grouped !! fn = Some members →
        NoDup members ∧ members ≠ []
        ∧ (∀ s, s ∈ members ↔ s ∈ senders ∧ first_token s = fn)
        ∧ (1 < length members →
           (fn +:+ " " +:+ all_variations) ∈ disp
           ∧ expand_selection grouped [fn +:+ " " +:+ all_variations]
             = Returned members)
        ∧ (∀ s, members = [s] →
                s ∈ disp ∧ expand_selection grouped [s] = Returned [s]).
Proof.
  destruct (group_senders_spec senders Htrim) as (grouped & Hg & Hlook).
  assert (Hgroup : ∀ fn members, grouped !! fn = Some members →
            members = members_of fn senders ∧ members ≠ []).
  { intros fn members H. apply group_of_Some. by rewrite <- Hlook. }
  destruct (display_fold (map_to_list grouped)) as (disp & Hd & Hall).
  { apply Forall_forall. intros [fn ms] Hin.
    apply elem_of_map_to_list in Hin. by apply (Hgroup fn ms). }
  exists grouped, disp. split; [done|]. split; [done|]. split; [done|].
  split; [|split].
  - intros s Hs. pose proof (Hlook (first_token s)) as Hl.
    unfold group_of in Hl.
    assert (Hin : s ∈ members_of (first_token s) senders)
      by (by apply members_of_elem).
    destruct (members_of (first_token s) senders) as [|m ms] eqn:E.
    + by apply not_elem_of_nil in Hin.
    + by exists (m :: ms).
  - apply Forall2_length in Hall. rewrite <- Hall.
    apply length_map_to_list.
  - intros fn members Hfn.
    destruct (Hgroup fn members Hfn) as [Hmem Hne].
    assert (Helem : ∀ s, s ∈ members ↔ s ∈ senders ∧ first_token s = fn).
    { intros s. rewrite Hmem, members_of_elem. tauto. }
    assert (Hkey : fn ≠ "" ∧ PyStr.no_space fn = true).
    { destruct members as [|s ms]; [done|].
      destruct (proj1 (Helem s)) as [Hs <-]; [by left|].
      eapply Forall_forall in Htrim; [|exact Hs].
      by destruct (trimmed_first_name s Htrim) as (_ & _ & ? & ?). }
    destruct (Forall2_elem_l _ _ _ (fn, members) Hall) as (d & Hdin & Hdc).
    { by apply elem_of_map_to_list. }
    cbn [fst snd] in Hdc.
    split; [rewrite Hmem; by apply NoDup_filter|].
    split; [done|]. split; [done|]. split.
    + intros Hlen. unfold display_choice in Hdc.
      rewrite (proj2 (Nat.ltb_lt _ _) Hlen) in Hdc. injection Hdc as <-.
      split; [done|].
      unfold expand_selection, expand_step. cbn [foldl obind].
      rewrite endswith_all_variations.
      destruct (split_all_variations fn) as [more ->]; [tauto..|].
      by rewrite Hfn.
    + intros s ->. unfold display_choice in Hdc. cbn in Hdc.
      injection Hdc as <-. split; [done|].
      destruct (proj1 (Helem s)) as [Hs Hfirst]; [by left|].
      eapply Forall_forall in Htrim; [|exact Hs].
      destruct (trimmed_first_name s Htrim) as (_ & [more Hsplit] & _).
      unfold expand_selection, expand_step. cbn [foldl obind].
      destruct (PyStr.endswith s all_variations); [|done].
      by rewrite Hsplit, Hfirst, Hfn.
Qed.

Lemma group_by_first_token_choices_witness :
  let senders := ["Alice Smith"; "Alice Jones"; "Bob Lee"] in
  NoDup senders
  ∧ Forall trimmed_nonempty senders
  ∧ ∃ grouped disp,
      group_senders senders = Returned grouped
      ∧ display_senders grouped = Returned disp
      ∧ grouped !! "Alice" = Some ["Alice Smith"; "Alice Jones"]
      ∧ grouped !! "Bob" = Some ["Bob Lee"]
      ∧ length disp = 2
      ∧ "Alice (All variations)" ∈ disp
      ∧ "Bob Lee" ∈ disp
      ∧ expand_selection grouped ["Alice (All variations)"]
        = Returned ["Alice Smith"; "Alice Jones"].
Proof.
  intros senders.
  assert (Hd : NoDup senders).
  { apply (bool_decide_unpack (NoDup senders)). vm_compute. exact I. }
  assert (Ht : Forall trimmed_nonempty senders).
  { repeat constructor; solve [reflexivity | discriminate]. }
  split; [exact Hd|]. split; [exact Ht|].
  destruct (group_by_first_token_choices senders Hd Ht)
    as (grouped & disp & Hg & Hdisp & Hlook & _ & Hlen & Hgroups).
  exists grouped, disp.
  assert (Ha : grouped !! "Alice" = Some ["Alice Smith"; "Alice Jones"])
    by (rewrite Hlook; reflexivity).
  assert (Hb : grouped !! "Bob" = Some ["Bob Lee"])
    by (rewrite Hlook; reflexivity).
  destruct (Hgroups _ _ Ha) as (_ & _ & _ & Hcomb & _).
  destruct (Hgroups _ _ Hb) as (_ & _ & _ & _ & Hsingle).
  destruct Hcomb as [Hin Hexp]; [cbn; lia|].
  destruct (Hsingle "Bob Lee" eq_refl) as [Hbin _].
  split; [exact Hg|]. split; [exact Hdisp|].
  split; [exact Ha|]. split; [exact Hb|]. split.
  - rewrite Hlen. clear -Hg. vm_compute in Hg.
    injection Hg as <-. vm_compute. reflexivity.
  - split; [exact Hin|]. split; [exact Hbin | exact Hexp].
Defined.

End SendersClaims.

(* ===================================================================== *)
(** * 14. The registry beyond the specification's sentences               *)
(* ===================================================================== *)

Module RegistryOpsFacts.
Import Registry RegistryFacts RegistryOps.

Lemma merge_models_empty {V} (builtin : gmap string V) :
  merge_models builtin ∅ = builtin.
Proof. unfold merge_models. apply map_fold_empty. Qed.

Lemma loaded_all_normalized (d : disk) :
  map_Forall (λ _ e, normalized e) (load_saved_models d).1.
Proof. intros alias e. apply load_normalized. Qed.

(** A saved mapping of normalized entries is read back as it was. *)
Lemma load_save_normalized_map (m : models) (d : disk) :
  writable d = true → map_Forall (λ _ e, normalized e) m →
  load_saved_models (save_saved_models m d).1 = (m, []).
Proof.
  intros Hw Hn.
  assert (Hfst : (load_saved_models (save_saved_models m d).1).1 = m).
  { apply map_eq. intros alias. rewrite load_after_save by done.
    destruct (m !! alias) as [e|] eqn:E; [|done]. simpl.
    apply convert_of_normalized. by apply (Hn alias). }
  unfold save_saved_models in *. rewrite Hw in *.
  unfold load_saved_models in *. cbn [content fst] in *. by rewrite Hfst.
Qed.

Lemma insert_normalized (m : models) alias e :
  normalized e → map_Forall (λ _ x, normalized x) m →
  map_Forall (λ _ x, normalized x) (<[alias := e]> m).
Proof. intros He Hm. by apply map_Forall_insert_2. Qed.

(** What a valid upsert does, field by field. *)
Lemma add_update_valid alias_in id_in public_in (p : page) :
  PyStr.strip alias_in ≠ "" → PyStr.strip id_in ≠ "" →
  add_update_model alias_in id_in public_in p
  = Page (<[alias_in := mk_entry id_in public_in]> (fine_tuned_models p))
         (save_saved_models
            (<[alias_in := mk_entry id_in public_in]>
               (load_saved_models (store p)).1) (store p)).1
         (shown p ++ (load_saved_models (store p)).2
            ++ (save_saved_models
                  (<[alias_in := mk_entry id_in public_in]>
                     (load_saved_models (store p)).1) (store p)).2
            ++ [SuccessAdded alias_in]).
Proof.
  intros Ha Hi. unfold add_update_model.
  rewrite (proj2 (PyStrFacts.truthy_true _) Ha).
  rewrite (proj2 (PyStrFacts.truthy_true _) Hi). cbn [andb].
  destruct (load_saved_models (store p)) as [user w1]. cbn [fst snd].
  by destruct (save_saved_models _ _).
Qed.

(** The loaded store after writing [entry] under [key] over what the
    store loaded to. *)
Lemma load_after_insert (d : disk) key id public :
  writable d = true →
  (load_saved_models
     (save_saved_models
        (<[key := mk_entry id public]> (load_saved_models d).1) d).1).1
  = <[key := mk_entry id public]> (load_saved_models d).1.
Proof.
  intros Hw. rewrite load_save_normalized_map; [done|done|].
  apply insert_normalized; [apply mk_entry_normalized|].
  apply loaded_all_normalized.
Qed.

Lemma save_writable (m : models) (d : disk) :
  writable d = true → writable (save_saved_models m d).1 = true.
Proof. intros Hw. unfold save_saved_models. by rewrite Hw. Qed.

Lemma monitor_succeeded ft_model (p : page) :
  ft_model ≠ "" →
  (monitor_job (Succeeded (Some ft_model)) p).1
  = Page (<[new_key ft_model (fine_tuned_models p) := mk_entry ft_model true]>
            (fine_tuned_models p))
         (save_saved_models
            (<[new_key ft_model (fine_tuned_models p)
                 := mk_entry ft_model true]>
               (load_saved_models (store p)).1) (store p)).1
         (shown p ++ (load_saved_models (store p)).2
            ++ (save_saved_models
                  (<[new_key ft_model (fine_tuned_models p)
                       := mk_entry ft_model true]>
                     (load_saved_models (store p)).1) (store p)).2).
Proof.
  intros Hne. unfold monitor_job.
  rewrite (proj2 (PyStrFacts.truthy_true _) Hne).
  destruct (load_saved_models (store p)) as [user w1]. cbn [fst snd].
  by destruct (save_saved_models _ _).
Qed.

Lemma pre_created_normalized :
  map_Forall (λ _ e, normalized e) PRE_CREATED_MODELS.
Proof.
  intros alias e. unfold PRE_CREATED_MODELS.
  rewrite !lookup_insert. repeat case_decide; try done;
    intros [= <-]; apply mk_entry_normalized.
Qed.

(** Every entry of a reachable session has an [id] and a [public]. *)
Lemma reachable_normalized (p : page) :
  reachable p → map_Forall (λ _ e, normalized e) (fine_tuned_models p).
Proof.
  induction 1 as [d|a i b p _ IH|w p p' _ IH Hc|status p _ IH|p d _ IH].
  - unfold start. destruct (load_saved_models d) as [user ws] eqn:E.
    cbn [fine_tuned_models]. intros alias e.
    rewrite merge_models_lookup.
    destruct (user !! alias) as [e'|] eqn:Hu.
    + intros [= <-]. apply (load_normalized d alias). by rewrite E.
    + apply pre_created_normalized.
  - unfold add_update_model. destruct (_ && _); [|done].
    destruct (load_saved_models (store p)) as [user w1].
    destruct (save_saved_models _ _) as [d w2]. cbn [fine_tuned_models].
    apply insert_normalized; [apply mk_entry_normalized | done].
  - destruct (decide (fine_tuned_models p = ∅)) as [He|Hne].
    + unfold click_save_all in Hc.
      rewrite bool_decide_eq_true_2 in Hc by done. by injection Hc as <-.
    + assert (Hok : session_ok (fine_tuned_models p)).
      { intros alias e He. by destruct (IH alias e He). }
      destruct (click_save_all_spec w p Hok Hne) as (s & u & Hr & Hs & _).
      rewrite Hr in Hc. injection Hc as <-. cbn [fine_tuned_models].
      intros alias e. rewrite Hs. unfold after_save_all.
      destruct (fine_tuned_models p !! alias); [|done].
      destruct (w_remove (w alias)); [done|].
      intros [= <-]. apply form_entry_normalized.
  - destruct status as [[ft|]| | |]; try done.
    unfold monitor_job. destruct (PyStr.truthy ft); [|done].
    destruct (load_saved_models (store p)) as [user w1].
    destruct (save_saved_models _ _) as [d w2]. cbn [fst fine_tuned_models].
    apply insert_normalized; [apply mk_entry_normalized | done].
  - done.
Qed.

End RegistryOpsFacts.

Module PublicListFacts.
Import Registry RegistryFacts RegistryOps.

Lemma public_id_convert (v : json) :
  public_id v = convert v ≫= entry_public_id.
Proof.
  destruct v as [| | |s| |d]; try done.
  cbn [public_id convert]. unfold entry_public_id.
  destruct (d !! "id") as [i|] eqn:Hid.
  - destruct (d !! "public") as [pb|] eqn:Hp; cbn [mbind option_bind].
    + by rewrite Hp, Hid.
    + rewrite lookup_insert_eq, lookup_insert_ne, Hid by done. done.
  - cbn [mbind option_bind]. by destruct (json_truthy _).
Qed.

(** The loop over the stored values raises when it meets a public dict
    without [id], and otherwise lists [public_id] of each value. *)
Lemma public_models_spec (data : gmap string json) :
  ((∃ alias v, data !! alias = Some v ∧ lacks_id v)
   ∧ public_models data = Raised KeyError)
  ∨ ((∀ alias v, data !! alias = Some v → ¬ lacks_id v)
     ∧ public_models data = Returned (omap public_id data)).
Proof.
  unfold public_models.
  apply (map_fold_weak_ind
           (λ r (m : gmap string json),
              ((∃ alias v, m !! alias = Some v ∧ lacks_id v)
               ∧ r = Raised KeyError)
              ∨ ((∀ alias v, m !! alias = Some v → ¬ lacks_id v)
                 ∧ r = Returned (omap public_id m)))).
  - right. split; [by intros alias v; rewrite lookup_empty|].
    by rewrite omap_empty.
  - intros i x m r Hi [[(alias & v & Hv & Hbad) ->]|[Hgood ->]].
    + left. split; [|done]. exists alias, v. split; [|done].
      rewrite lookup_insert_ne; [done | congruence].
    + assert (Hdel : delete i (omap public_id m) = omap public_id m).
      { apply delete_id. by rewrite lookup_omap, Hi. }
      assert (Hother : ¬ lacks_id x → ∀ alias v,
                <[i := x]> m !! alias = Some v → ¬ lacks_id v).
      { intros Hx alias v. rewrite lookup_insert. case_decide.
        - by intros [= <-].
        - apply Hgood. }
      rewrite omap_insert. unfold public_step. cbn [obind].
      destruct x as [| | |s| |d]; cbn [public_id]; rewrite ?Hdel;
        try (right; split; [apply Hother; cbn; tauto | reflexivity]).
      destruct (json_truthy (default (JBool true) (d !! "public"))) eqn:Ht.
      * destruct (d !! "id") as [id|] eqn:Hid.
        -- right. split; [|done]. apply Hother. cbn. rewrite Hid.
           by intros [_ ?].
        -- left. split; [|done]. exists i, (JObj d).
           rewrite lookup_insert_eq. by split.
      * rewrite Hdel. right. split; [|done]. apply Hother. cbn.
        rewrite Ht. by intros [? _].
Qed.

End PublicListFacts.

Module RegistryExtras.
Import Registry RegistryFacts RegistryOps RegistryOpsFacts PublicListFacts.

(** X1. With a registry file that is missing, unreadable or not a JSON
    object, a session starts with exactly the builtin models and the
    public application loads nothing; only the unreadable file gives a
    warning. *)
Theorem unusable_file_gives_builtins (d : disk)
    (Hfile : content d = NoFile ∨ content d = BadFile
             ∨ ∃ v, content d = JsonFile v ∧ ∀ m, v ≠ JObj m) :
  fine_tuned_models (start None d) = PRE_CREATED_MODELS
  ∧ (load_saved_models_public d).1 = ∅
  ∧ (shown (start None d) = [WarnCouldNotRead] ↔ content d = BadFile)
  ∧ (content d ≠ BadFile → shown (start None d) = []).
Proof.
  unfold start, load_saved_models, load_saved_models_public.
  destruct Hfile as [H|[H|(v & H & Hv)]]; rewrite H.
  - cbn. rewrite merge_models_empty. by repeat split.
  - cbn. rewrite merge_models_empty. by repeat split.
  - destruct v as [| | | | |m]; [..|by destruct (Hv m)];
      cbn; rewrite merge_models_empty; by repeat split.
Qed.

Lemma unusable_file_gives_builtins_witness :
  let d := Disk (JsonFile (JArr [JStr "ft:abc"])) true in
  (content d = NoFile ∨ content d = BadFile
   ∨ ∃ v, content d = JsonFile v ∧ ∀ m, v ≠ JObj m)
  ∧ fine_tuned_models (start None d) = PRE_CREATED_MODELS.
Proof.
  intros d.
  assert (H : content d = NoFile ∨ content d = BadFile
              ∨ ∃ v, content d = JsonFile v ∧ ∀ m, v ≠ JObj m).
  { right. right. eexists. split; [reflexivity | discriminate]. }
  split; [exact H|]. apply (unusable_file_gives_builtins d H).
Defined.

(** X2. Whatever the registry file holds, every entry the admin load
    returns has an [id] and a [public] key, and comes from a value stored
    under the same alias in a JSON object. *)
Theorem loaded_entries_have_id_and_public (d : disk) (alias : string)
    (e : entry) (Hload : (load_saved_models d).1 !! alias = Some e) :
  is_Some (e !! "id") ∧ is_Some (e !! "public")
  ∧ ∃ data v, content d = JsonFile (JObj data)
              ∧ data !! alias = Some v ∧ convert v = Some e.
Proof.
  destruct (load_normalized d alias e Hload) as [Hid Hp].
  split; [done|]. split; [done|].
  unfold load_saved_models in Hload.
  destruct (content d) as [| |[| | | | |data]]; cbn in Hload;
    try by rewrite lookup_empty in Hload.
  rewrite lookup_omap in Hload.
  destruct (data !! alias) as [v|] eqn:E; [|done].
  by exists data, v.
Qed.

Lemma loaded_entries_have_id_and_public_witness :
  let d := Disk (JsonFile (JObj {["m1" := JObj {["id" := JStr "ft:abc"]}]}))
                false in
  (load_saved_models d).1 !! "m1"
  = Some (<["public" := JBool true]> {["id" := JStr "ft:abc"]})
  ∧ is_Some ((<["public" := JBool true]> {["id" := JStr "ft:abc"]} : entry)
               !! "public").
Proof.
  intros d.
  assert (H : (load_saved_models d).1 !! "m1"
              = Some (<["public" := JBool true]> {["id" := JStr "ft:abc"]}))
    by reflexivity.
  split; [exact H|].
  apply (loaded_entries_have_id_and_public d "m1" _ H).
Defined.

(** X3. Saving a mapping whose entries all have [id] and [public] to a
    writable file and loading it again gives the same mapping, without a
    warning. *)
Theorem save_load_round_trip (m : models) (d : disk)
    (Hw : writable d = true)
    (Hn : ∀ alias e, m !! alias = Some e →
                     is_Some (e !! "id") ∧ is_Some (e !! "public")) :
  load_saved_models (save_saved_models m d).1 = (m, []).
Proof. by apply load_save_normalized_map. Qed.

Lemma save_load_round_trip_witness :
  let m : models := {["mine" := mk_entry "ft:x" false]} in
  writable (Disk BadFile true) = true
  ∧ load_saved_models (save_saved_models m (Disk BadFile true)).1 = (m, []).
Proof.
  intros m. split; [reflexivity|].
  apply (save_load_round_trip m (Disk BadFile true)); [reflexivity|].
  intros alias e. unfold m.
  destruct (decide (alias = "mine")) as [->|Hne].
  - rewrite lookup_singleton_eq. intros [= <-]. split; by eexists.
  - by rewrite lookup_singleton_ne.
Defined.

(** X4. Saving what was loaded is stable: whatever the file held, after
    saving the loaded mapping to a writable file the file loads to the
    same mapping; legacy strings and missing [public] keys are then stored
    in the current format. *)
Theorem resave_is_stable (d : disk) (Hw : writable d = true) :
  (load_saved_models
     (save_saved_models (load_saved_models d).1 d).1).1
  = (load_saved_models d).1
  ∧ (load_saved_models
       (save_saved_models (load_saved_models d).1 d).1).2 = [].
Proof.
  rewrite load_save_normalized_map; [done|done|].
  apply loaded_all_normalized.
Qed.

Lemma resave_is_stable_witness :
  let d := Disk (JsonFile (JObj {["m1" := JStr "ft:abc";
                                  "bad" := JObj {["public" := JBool true]}]}))
                true in
  writable d = true
  ∧ (load_saved_models
       (save_saved_models (load_saved_models d).1 d).1).1
    = {["m1" := mk_entry "ft:abc" true]}.
Proof.
  intros d. split; [reflexivity|].
  rewrite (proj1 (resave_is_stable d eq_refl)).
  vm_compute. reflexivity.
Defined.

(** X5. When the registry file cannot be written, a valid upsert still
    changes the session: the merged view holds the new entry, the file is
    as before, and the error of the save is followed by the success
    message. *)
Theorem failed_save_keeps_session_change
    (alias_in id_in : string) (public_in : bool) (p : page)
    (Halias : PyStr.strip alias_in ≠ "") (Hid : PyStr.strip id_in ≠ "")
    (Hw : writable (store p) = false) :
  let p' := add_update_model alias_in id_in public_in p in
  fine_tuned_models p' !! alias_in = Some (mk_entry id_in public_in)
  ∧ store p' = store p
  ∧ shown p' = shown p ++ (load_saved_models (store p)).2
                 ++ [ErrorSaving; SuccessAdded alias_in].
Proof.
  intros p'. subst p'. rewrite add_update_valid by done.
  rewrite save_unwritable by done. cbn [fine_tuned_models store shown fst snd].
  split; [apply lookup_insert_eq | done].
Qed.

Lemma failed_save_keeps_session_change_witness :
  let p := start None (Disk NoFile false) in
  PyStr.strip "mine" ≠ "" ∧ PyStr.strip "ft:x" ≠ ""
  ∧ writable (store p) = false
  ∧ (load_saved_models (store (add_update_model "mine" "ft:x" true p))).1
    = ∅
  ∧ shown (add_update_model "mine" "ft:x" true p)
    = [ErrorSaving; SuccessAdded "mine"].
Proof.
  intros p.
  assert (Ha : PyStr.strip "mine" ≠ "") by (vm_compute; discriminate).
  assert (Hi : PyStr.strip "ft:x" ≠ "") by (vm_compute; discriminate).
  split; [exact Ha|]. split; [exact Hi|]. split; [reflexivity|].
  destruct (failed_save_keeps_session_change "mine" "ft:x" true p Ha Hi
              eq_refl) as (_ & Hs & Hshown).
  rewrite Hs, Hshown. split; reflexivity.
Defined.

(** X6. A valid upsert with a writable file changes one alias only: the
    merged view and the mapping the store loads to are the former ones
    with the new entry under the alias. Builtin aliases that were not in
    the store are not written to it. *)
Theorem upsert_exact_effect
    (alias_in id_in : string) (public_in : bool) (p : page)
    (Halias : PyStr.strip alias_in ≠ "") (Hid : PyStr.strip id_in ≠ "")
    (Hw : writable (store p) = true) :
  let p' := add_update_model alias_in id_in public_in p in
  fine_tuned_models p'
  = <[alias_in := mk_entry id_in public_in]> (fine_tuned_models p)
  ∧ (load_saved_models (store p')).1
    = <[alias_in := mk_entry id_in public_in]> (load_saved_models (store p)).1
  ∧ ∀ alias, alias ≠ alias_in →
             fine_tuned_models p' !! alias = fine_tuned_models p !! alias
             ∧ (load_saved_models (store p')).1 !! alias
               = (load_saved_models (store p)).1 !! alias.
Proof.
  intros p'. subst p'. rewrite add_update_valid by done.
  cbn [fine_tuned_models store]. rewrite load_after_insert by done.
  split; [done|]. split; [done|]. intros alias Hne.
  by rewrite !lookup_insert_ne.
Qed.

Lemma upsert_exact_effect_witness :
  let p := start None fresh_disk in
  PyStr.strip "mine" ≠ "" ∧ PyStr.strip "ft:x" ≠ ""
  ∧ writable (store p) = true
  ∧ (load_saved_models (store (add_update_model "mine" "ft:x" true p))).1
    = {["mine" := mk_entry "ft:x" true]}.
Proof.
  intros p.
  assert (Ha : PyStr.strip "mine" ≠ "") by (vm_compute; discriminate).
  assert (Hi : PyStr.strip "ft:x" ≠ "") by (vm_compute; discriminate).
  split; [exact Ha|]. split; [exact Hi|]. split; [reflexivity|].
  rewrite (proj1 (proj2 (upsert_exact_effect "mine" "ft:x" true p Ha Hi
                           eq_refl))).
  vm_compute. reflexivity.
Defined.

(** X7. Two valid upserts of the same alias leave what the second alone
    leaves: the last write wins, in the merged view and in the store. *)
Theorem upsert_last_write_wins
    (alias_in id1 id2 : string) (public1 public2 : bool) (p : page)
    (Halias : PyStr.strip alias_in ≠ "")
    (Hid1 : PyStr.strip id1 ≠ "") (Hid2 : PyStr.strip id2 ≠ "")
    (Hw : writable (store p) = true) :
  let twice := add_update_model alias_in id2 public2
                 (add_update_model alias_in id1 public1 p) in
  let once := add_update_model alias_in id2 public2 p in
  fine_tuned_models twice = fine_tuned_models once
  ∧ (load_saved_models (store twice)).1 = (load_saved_models (store once)).1.
Proof.
  intros twice once. subst twice once.
  rewrite (add_update_valid alias_in id2 public2 (add_update_model _ _ _ _))
    by done.
  rewrite (add_update_valid alias_in id2 public2 p) by done.
  rewrite (add_update_valid alias_in id1 public1 p) by done.
  cbn [fine_tuned_models store].
  rewrite !load_after_insert by (done || by apply save_writable).
  by rewrite !insert_insert_eq.
Qed.

Lemma upsert_last_write_wins_witness :
  let p := start None fresh_disk in
  PyStr.strip "mine" ≠ "" ∧ PyStr.strip "ft:a" ≠ "" ∧ PyStr.strip "ft:b" ≠ ""
  ∧ writable (store p) = true
  ∧ fine_tuned_models
      (add_update_model "mine" "ft:b" false
         (add_update_model "mine" "ft:a" true p))
    = fine_tuned_models (add_update_model "mine" "ft:b" false p).
Proof.
  intros p.
  assert (Ha : PyStr.strip "mine" ≠ "") by (vm_compute; discriminate).
  assert (H1 : PyStr.strip "ft:a" ≠ "") by (vm_compute; discriminate).
  assert (H2 : PyStr.strip "ft:b" ≠ "") by (vm_compute; discriminate).
  split; [exact Ha|]. split; [exact H1|]. split; [exact H2|].
  split; [reflexivity|].
  apply (upsert_last_write_wins "mine" "ft:a" "ft:b" true false p Ha H1 H2
           eq_refl).
Defined.

End RegistryExtras.

Module SessionExtras.
Import Registry RegistryFacts RegistryOps RegistryOpsFacts PublicListFacts.

(** X8. In every page the admin application can reach, each entry of the
    merged view has an [id] and a [public] key; hence drawing the "Manage
    Models" form and clicking "Save All Changes" never raises, whatever
    the widgets hold. *)
Theorem reachable_session_well_formed (p : page) (Hreach : reachable p) :
  (∀ alias e, fine_tuned_models p !! alias = Some e →
              is_Some (e !! "id") ∧ is_Some (e !! "public"))
  ∧ ∀ w, ∃ p', click_save_all w p = Returned p'.
Proof.
  pose proof (reachable_normalized p Hreach) as Hn.
  split; [exact Hn|]. intros w.
  destruct (decide (fine_tuned_models p = ∅)) as [He|Hne].
  - exists p. unfold click_save_all. by rewrite bool_decide_eq_true_2.
  - assert (Hok : session_ok (fine_tuned_models p)).
    { intros alias e He. by destruct (Hn alias e He). }
    destruct (click_save_all_spec w p Hok Hne) as (s & u & Hr & _).
    by eexists.
Qed.

Lemma reachable_session_well_formed_witness :
  let stored : gmap string json := {["old" := JStr "ft:abc"]} in
  let p := monitor_job (Succeeded (Some "ft:new"))
             (add_update_model "mine" "ft:x" false
                (start None (Disk (JsonFile (JObj stored)) true))) in
  reachable p.1
  ∧ ∃ p', click_save_all (retag "ft:y") p.1 = Returned p'.
Proof.
  intros stored p.
  assert (Hr : reachable p.1).
  { apply reach_monitor, reach_add, reach_start. }
  split; [exact Hr|].
  apply (reachable_session_well_formed p.1 Hr).
Defined.

(** X9. "Save All Changes" touches the aliases of the session only. An
    alias that is not in the merged view is not in it afterwards either.
    When the file cannot be written the store is left as it was. When it
    is written, it holds under such an alias what the admin load made of
    the old value: a dict with [id] and [public] as it was, a dict with
    [id] but no [public] with [public: true] added, a legacy string as
    [{id, public: true}], and nothing for a dict without [id], for any
    other value or when there was no such alias. *)
Theorem bulk_save_leaves_other_aliases
    (w : string → widget) (p : page) (alias : string)
    (Hok : session_ok (fine_tuned_models p))
    (Hne : fine_tuned_models p ≠ ∅)
    (Habsent : fine_tuned_models p !! alias = None) :
  ∃ p', click_save_all w p = Returned p'
        ∧ fine_tuned_models p' !! alias = None
        ∧ (writable (store p) = false → store p' = store p)
        ∧ (writable (store p) = true →
           ∃ data',
             content (store p') = JsonFile (JObj data')
             ∧ data' !! alias
               = match content (store p) with
                 | JsonFile (JObj data) =>
                     match data !! alias with
                     | Some (JStr s) =>
                         Some (JObj (<["id" := JStr s]>
                                       (<["public" := JBool true]> ∅)))
                     | Some (JObj val) =>
                         match val !! "id", val !! "public" with
                         | Some _, Some _ => Some (JObj val)
                         | Some _, None =>
                             Some (JObj (<["public" := JBool true]> val))
                         | None, _ => None
                         end
                     | _ => None
                     end
                 | _ => None
                 end).
Proof.
  destruct (click_save_all_spec w p Hok Hne)
    as (session & user & -> & Hs & Hu).
  eexists. split; [done|]. cbn [fine_tuned_models store]. split.
  { rewrite Hs. unfold after_save_all. by rewrite Habsent. }
  split; [intros Hw; by apply save_unwritable_store|].
  intros Hw. rewrite save_writable_store by done.
  eexists. split; [reflexivity|].
  rewrite lookup_fmap, Hu. unfold after_save_all. rewrite Habsent.
  unfold load_saved_models.
  destruct (content (store p)) as [| |[| | | | |data]]; cbn [fst];
    try by rewrite lookup_empty.
  rewrite lookup_omap.
  destruct (data !! alias) as [[| | |s| |val]|]; cbn; try done.
  destruct (val !! "id"); [|done]. by destruct (val !! "public").
Qed.

Lemma bulk_save_leaves_other_aliases_witness :
  let stored : gmap string json :=
    {["old" := JStr "ft:abc"; "odd" := JNum 7]} in
  let p := Page {["mine" := mk_entry "ft:x" true]}
                (Disk (JsonFile (JObj stored)) true) [] in
  session_ok (fine_tuned_models p)
  ∧ fine_tuned_models p ≠ ∅
  ∧ fine_tuned_models p !! "old" = None
  ∧ ∃ p' data', click_save_all (retag "ft:y") p = Returned p'
          ∧ content (store p') = JsonFile (JObj data')
          ∧ data' !! "old"
            = Some (JObj (<["id" := JStr "ft:abc"]>
                            (<["public" := JBool true]> ∅))).
Proof.
  intros stored p.
  assert (Hok : session_ok (fine_tuned_models p)).
  { intros alias e. cbn [p fine_tuned_models].
    destruct (decide (alias = "mine")) as [->|Hne].
    - rewrite lookup_singleton_eq. intros [= <-]. by eexists.
    - by rewrite lookup_singleton_ne. }
  assert (Hne : fine_tuned_models p ≠ ∅).
  { intros H. apply (f_equal (λ m : models, m !! "mine")) in H.
    cbn [p fine_tuned_models] in H.
    rewrite lookup_singleton_eq, lookup_empty in H. discriminate. }
  assert (Ha : fine_tuned_models p !! "old" = None) by reflexivity.
  split; [exact Hok|]. split; [exact Hne|]. split; [exact Ha|].
  destruct (bulk_save_leaves_other_aliases (retag "ft:y") p "old" Hok Hne Ha)
    as (p' & Hc & _ & _ & Hd).
  destruct (Hd eq_refl) as (data' & Hcont & Hold).
  exists p', data'. split; [exact Hc|]. split; [exact Hcont|].
  rewrite Hold. reflexivity.
Defined.

(** X10. Clicking "Save All Changes" on the form as first drawn, for a
    session whose entries are plain [{id: <string>, public: <bool>}]
    dicts, leaves the merged view as it was and, when the file is
    writable, makes the store load to the session's entries over those it
    had. *)
Theorem bulk_save_of_untouched_form
    (w : string → widget) (p : page)
    (Hplain : ∀ alias e, fine_tuned_models p !! alias = Some e →
                ∃ id public, e = mk_entry id public)
    (Hform : untouched w (fine_tuned_models p))
    (Hne : fine_tuned_models p ≠ ∅) :
  ∃ p', click_save_all w p = Returned p'
        ∧ fine_tuned_models p' = fine_tuned_models p
        ∧ (writable (store p) = true →
           (load_saved_models (store p')).1
           = fine_tuned_models p ∪ (load_saved_models (store p)).1).
Proof.
  assert (Hok : session_ok (fine_tuned_models p)).
  { intros alias e He. destruct (Hplain alias e He) as (i & b & ->).
    by eexists. }
  assert (Hsame : ∀ alias e, fine_tuned_models p !! alias = Some e →
            w_remove (w alias) = false ∧ form_entry w alias = e).
  { intros alias e He. destruct (Hplain alias e He) as (i & b & ->).
    destruct (Hform alias _ He) as (i' & b' & Hi & Hb & Hw).
    unfold mk_entry in Hi, Hb. rewrite lookup_insert_eq in Hi.
    rewrite lookup_insert_ne, lookup_insert_eq in Hb by done.
    injection Hi as <-. injection Hb as <-.
    unfold form_entry. by rewrite Hw. }
  destruct (click_save_all_spec w p Hok Hne)
    as (session & user & -> & Hs & Hu).
  eexists. split; [done|]. cbn [fine_tuned_models store]. split.
  - apply map_eq. intros alias. rewrite Hs. unfold after_save_all.
    destruct (fine_tuned_models p !! alias) as [e|] eqn:E; [|done].
    by destruct (Hsame alias e E) as [-> ->].
  - intros Hw. apply map_eq. intros alias.
    rewrite load_after_save, Hu, lookup_union by done.
    unfold after_save_all.
    destruct (fine_tuned_models p !! alias) as [e|] eqn:E.
    + destruct (Hsame alias e E) as [-> Hfe]. rewrite Hfe.
      cbn [mbind option_bind].
      rewrite convert_of_normalized
        by (rewrite <- Hfe; apply form_entry_normalized).
      by destruct ((load_saved_models (store p)).1 !! alias).
    + destruct ((load_saved_models (store p)).1 !! alias) as [e|] eqn:E';
        [|done].
      cbn [mbind option_bind union option_union union_with
           option_union_with].
      apply convert_of_normalized. by eapply load_normalized.
Qed.

Lemma bulk_save_of_untouched_form_witness :
  let p := Page {["mine" := mk_entry "ft:x" false]} fresh_disk [] in
  let w : string → widget := λ _, Widget (Some "ft:x") false false in
  untouched w (fine_tuned_models p)
  ∧ fine_tuned_models p ≠ ∅
  ∧ ∃ p', click_save_all w p = Returned p'
          ∧ fine_tuned_models p' = fine_tuned_models p.
Proof.
  intros p w.
  assert (Hlook : ∀ alias e, fine_tuned_models p !! alias = Some e →
            e = mk_entry "ft:x" false).
  { intros alias e. cbn [p fine_tuned_models].
    destruct (decide (alias = "mine")) as [->|Hne].
    - rewrite lookup_singleton_eq. by intros [= <-].
    - by rewrite lookup_singleton_ne. }
  assert (Hplain : ∀ alias e, fine_tuned_models p !! alias = Some e →
            ∃ id public, e = mk_entry id public).
  { intros alias e He. rewrite (Hlook alias e He). by eexists _, _. }
  assert (Hform : untouched w (fine_tuned_models p)).
  { intros alias e He. rewrite (Hlook alias e He).
    exists "ft:x", false. by repeat split. }
  assert (Hne : fine_tuned_models p ≠ ∅).
  { intros H. apply (f_equal (λ m : models, m !! "mine")) in H.
    cbn [p fine_tuned_models] in H.
    rewrite lookup_singleton_eq, lookup_empty in H. discriminate. }
  split; [exact Hform|]. split; [exact Hne|].
  destruct (bulk_save_of_untouched_form w p Hplain Hform Hne)
    as (p' & Hc & Hfm & _).
  exists p'. split; [exact Hc | exact Hfm].
Defined.

(** X11. A poll that finds the job succeeded with a non-empty model name
    stores the model, public, under the alias
    [<model>-<number of session models + 1>] in the merged view and,
    when the file is writable, in the store, and changes no other alias.
    Any other poll result leaves the page as it was. *)
Theorem monitor_registers_model (status : job_status) (p : page) :
  (∀ ft_model, status = Succeeded (Some ft_model) → ft_model ≠ "" →
     let key := new_key ft_model (fine_tuned_models p) in
     let p' := (monitor_job status p).1 in
     fine_tuned_models p'
     = <[key := mk_entry ft_model true]> (fine_tuned_models p)
     ∧ (writable (store p) = true →
        (load_saved_models (store p')).1
        = <[key := mk_entry ft_model true]>
            (load_saved_models (store p)).1))
  ∧ ((∀ ft_model, status = Succeeded (Some ft_model) → ft_model = "") →
     (monitor_job status p).1 = p).
Proof.
  split.
  - intros ft -> Hne key p'. subst p' key.
    rewrite monitor_succeeded by done. cbn [fine_tuned_models store].
    split; [done|]. intros Hw. by rewrite load_after_insert.
  - intros Hother. destruct status as [[ft|]| | |]; try done.
    rewrite (Hother ft eq_refl). done.
Qed.

(** X12. Each poll that finds the job succeeded registers the model
    again: when the alias of the first poll was new, the second poll
    stores the same model under another alias, so the merged view then
    holds the model twice. *)
Theorem repeated_polls_register_twice (ft_model : string) (p : page)
    (Hmodel : ft_model ≠ "")
    (Hfresh : fine_tuned_models p
                !! new_key ft_model (fine_tuned_models p) = None) :
  let p1 := (monitor_job (Succeeded (Some ft_model)) p).1 in
  let p2 := (monitor_job (Succeeded (Some ft_model)) p1).1 in
  let key1 := new_key ft_model (fine_tuned_models p) in
  let key2 := new_key ft_model (fine_tuned_models p1) in
  key1 ≠ key2
  ∧ fine_tuned_models p2 !! key1 = Some (mk_entry ft_model true)
  ∧ fine_tuned_models p2 !! key2 = Some (mk_entry ft_model true)
  ∧ size (fine_tuned_models p1) = S (size (fine_tuned_models p)).
Proof.
  intros p1 p2 key1 key2.
  assert (Hp1 : fine_tuned_models p1
                = <[key1 := mk_entry ft_model true]> (fine_tuned_models p)).
  { subst p1 key1. by rewrite monitor_succeeded. }
  assert (Hsize : size (fine_tuned_models p1)
                  = S (size (fine_tuned_models p))).
  { rewrite Hp1. by apply map_size_insert_None. }
  assert (Hkeys : key1 ≠ key2).
  { subst key1 key2. unfold new_key. rewrite Hsize.
    intros H. apply String.app_inj, String.app_inj in H.
    apply (inj pretty) in H. lia. }
  assert (Hp2 : fine_tuned_models p2
                = <[key2 := mk_entry ft_model true]> (fine_tuned_models p1)).
  { subst p2 key2. by rewrite monitor_succeeded. }
  split; [done|]. split; [|split; [|exact Hsize]].
  - rewrite Hp2, lookup_insert_ne by done. rewrite Hp1.
    apply lookup_insert_eq.
  - rewrite Hp2. apply lookup_insert_eq.
Qed.

Lemma repeated_polls_register_twice_witness :
  let p := start None fresh_disk in
  "ft:new" ≠ ""
  ∧ fine_tuned_models p !! new_key "ft:new" (fine_tuned_models p) = None
  ∧ new_key "ft:new" (fine_tuned_models p)
    ≠ new_key "ft:new"
        (fine_tuned_models (monitor_job (Succeeded (Some "ft:new")) p).1).
Proof.
  intros p.
  assert (Hm : "ft:new" ≠ "") by discriminate.
  assert (Hf : fine_tuned_models p !! new_key "ft:new" (fine_tuned_models p)
               = None) by (vm_compute; reflexivity).
  split; [exact Hm|]. split; [exact Hf|].
  apply (repeated_polls_register_twice "ft:new" p Hm Hf).
Defined.

(** X13. The public list agrees with the admin's load. Where the stored
    object has a dict that counts as public and has no [id], building the
    list raises [KeyError]; otherwise the list holds, for each alias, the
    [id] of the entry the admin load gives for it when that entry's
    [public] is true, and nothing for the other aliases. *)
Theorem public_list_matches_admin_load
    (data : gmap string json) (can_write : bool) :
  let d := Disk (JsonFile (JObj data)) can_write in
  (load_saved_models_public d).1 = data
  ∧ ((∃ alias v, data !! alias = Some v ∧ lacks_id v) →
     public_models data = Raised KeyError)
  ∧ ((∀ alias v, data !! alias = Some v → ¬ lacks_id v) →
     ∃ listed,
       public_models data = Returned listed
       ∧ ∀ alias, listed !! alias
                  = (load_saved_models d).1 !! alias ≫= entry_public_id).
Proof.
  intros d. split; [done|].
  destruct (public_models_spec data)
    as [[(a & v & Hv & Hbad) ->]|[Hgood ->]].
  - split; [done|]. intros Hall. by destruct (Hall a v Hv).
  - split.
    + intros (a & v & Hv & Hbad). by destruct (Hgood a v Hv).
    + intros _. eexists. split; [done|]. intros alias.
      unfold load_saved_models. cbn [d content fst].
      rewrite !lookup_omap. destruct (data !! alias) as [v|]; [|done].
      cbn. apply public_id_convert.
Qed.

Lemma public_list_matches_admin_load_witness :
  let data : gmap string json :=
    {["old" := JStr "ft:abc";
      "hidden" := JObj (mk_entry "ft:h" false)]} in
  (∀ alias v, data !! alias = Some v → ¬ lacks_id v)
  ∧ ∃ listed, public_models data = Returned listed
              ∧ listed !! "old" = Some (JStr "ft:abc")
              ∧ listed !! "hidden" = None.
Proof.
  intros data.
  assert (Hgood : ∀ alias v, data !! alias = Some v → ¬ lacks_id v).
  { intros alias v. unfold data.
    destruct (decide (alias = "old")) as [->|Hold].
    - rewrite lookup_insert_eq. intros [= <-]. cbn. tauto.
    - rewrite lookup_insert_ne by done.
      destruct (decide (alias = "hidden")) as [->|Hhid].
      + rewrite lookup_singleton_eq. intros [= <-] [H _].
        vm_compute in H. discriminate.
      + by rewrite lookup_singleton_ne. }
  split; [exact Hgood|].
  destruct (proj2 (proj2 (public_list_matches_admin_load data true)) Hgood)
    as (listed & Hl & Hlook).
  exists listed. split; [exact Hl|].
  rewrite !Hlook. split; vm_compute; reflexivity.
Defined.

End SessionExtras.

(* ===================================================================== *)
(** * 15. CSV reading and the builder beyond the specification            *)
(* ===================================================================== *)

Module BuilderOpsFacts.
Import Builder BuilderFacts BuilderOps PyStrFacts.

(** Reading more files appends to what was read. *)
Lemma read_rows_from (files : list upload) (acc : list row * list upload_notice) :
  foldl (λ acc file_obj,
           let '(rows, failed) := dict_reader (lines file_obj) in
           (acc.1 ++ rows,
            if failed then acc.2 ++ [ErrorReadingFile (name file_obj)]
            else acc.2))
        acc files
  = (acc.1 ++ (read_rows_from_multiple_csvs files).1,
     acc.2 ++ (read_rows_from_multiple_csvs files).2).
Proof.
  unfold read_rows_from_multiple_csvs. revert acc.
  induction files as [|f files IH]; intros [rows notes]; cbn [foldl fst snd].
  - by rewrite !app_nil_r.
  - destruct (dict_reader (lines f)) as [rs failed]. cbn [fst snd].
    rewrite (IH (rows ++ rs, _)), (IH ([] ++ rs, _)). cbn [fst snd app].
    destruct failed; f_equal; by rewrite <- ?List.app_assoc.
Qed.

Lemma reader_rows_bad_line fieldnames (pre post : list csv_line) :
  BadLine ∉ pre →
  reader_rows fieldnames (pre ++ BadLine :: post)
  = ((reader_rows fieldnames pre).1, true)
  ∧ (reader_rows fieldnames pre).2 = false.
Proof.
  induction pre as [|l pre IH]; intros Hpre; [done|].
  destruct l as [cells|]; [|by destruct Hpre; left].
  destruct IH as [IH1 IH2]; [by intros ?; apply Hpre; right|].
  destruct cells as [|c cells]; cbn [app reader_rows].
  - by rewrite IH1.
  - rewrite IH1. destruct (reader_rows fieldnames pre) as [rows failed].
    cbn [fst snd] in *. by subst failed.
Qed.

(** The loop of the builder, with the file it leaves when it raises. *)
Lemma write_rows_split lower_senders (all_rows : list row) f_out count :
  (Forall cells_ok (List.filter (sender_selected lower_senders) all_rows)
   ∧ write_rows lower_senders all_rows f_out count
     = (f_out +:+ lines_text
                    (map rec_fields
                       (List.filter (sender_selected lower_senders) all_rows)),
        Returned
          (count
           + length (List.filter (sender_selected lower_senders) all_rows))))
  ∨ (∃ pre r post,
       List.filter (sender_selected lower_senders) all_rows = pre ++ r :: post
       ∧ Forall cells_ok pre ∧ ¬ cells_ok r
       ∧ write_rows lower_senders all_rows f_out count
         = (f_out +:+ lines_text (map rec_fields pre), Raised AttributeError)).
Proof.
  revert f_out count.
  induction all_rows as [|r rows IH]; intros f_out count;
    cbn [write_rows List.filter].
  - left. split; [constructor|]. cbn [map lines_text foldr length].
    by rewrite app_empty_r, Nat.add_0_r.
  - destruct (sender_selected lower_senders r) eqn:Hsel; [|apply IH].
    destruct (record_of r) as [rec|e] eqn:Hrec.
    + pose proof (record_of_returned _ _ Hrec) as ->.
      apply record_of_cells_ok in Hrec.
      destruct (IH (f_out +:+ record_line (rec_fields r)) (S count))
        as [[Hall ->]|(pre & r' & post & Hf & Hpre & Hbad & ->)].
      * left. split; [by constructor|].
        cbn [map length].
        change (lines_text (?x :: ?l)) with (record_line x +:+ lines_text l).
        rewrite app_assoc. do 2 f_equal. lia.
      * right. exists (r :: pre), r', post. rewrite Hf.
        split; [done|]. split; [by constructor|]. split; [done|].
        cbn [map].
        change (lines_text (?x :: ?l)) with (record_line x +:+ lines_text l).
        by rewrite app_assoc.
    + right. exists [], r, (List.filter (sender_selected lower_senders) rows).
      split; [done|]. split; [constructor|].
      assert (Hbad : ¬ cells_ok r).
      { intros Hok. apply record_of_cells_ok in Hok. congruence. }
      split; [done|]. apply record_of_raises in Hbad.
      rewrite Hbad in Hrec. injection Hrec as <-.
      cbn [map lines_text foldr]. by rewrite app_empty_r.
Qed.

Lemma lower_empty (s : string) : PyStr.lower s = "" ↔ s = "".
Proof. destruct s; split; done. Qed.

End BuilderOpsFacts.

Module BuilderExtras.
Import Builder BuilderFacts BuilderOps BuilderOpsFacts PyStrFacts.

(** X14. Reading two batches of uploads one after the other gives the
    rows of the first followed by the rows of the second, and likewise
    the error notices: rows keep the order of the files, and a file that
    fails does not stop the reading of the others. *)
Theorem read_rows_concatenates (first second : list upload) :
  read_rows_from_multiple_csvs (first ++ second)
  = ((read_rows_from_multiple_csvs first).1
       ++ (read_rows_from_multiple_csvs second).1,
     (read_rows_from_multiple_csvs first).2
       ++ (read_rows_from_multiple_csvs second).2).
Proof.
  unfold read_rows_from_multiple_csvs at 1. rewrite foldl_app.
  apply read_rows_from.
Qed.

(** X15. When a line of a file cannot be parsed, the rows of the lines
    before it are kept, the lines after it are not read, and one error is
    reported for the file; the part before the bad line alone reads
    without error. *)
Theorem reader_keeps_rows_before_bad_line
    (file_name : string) (fieldnames : list string)
    (pre post : list csv_line) (Hpre : BadLine ∉ pre) :
  read_rows_from_multiple_csvs
    [Upload file_name (Cells fieldnames :: pre ++ BadLine :: post)]
  = ((read_rows_from_multiple_csvs
        [Upload file_name (Cells fieldnames :: pre)]).1,
     [ErrorReadingFile file_name])
  ∧ (read_rows_from_multiple_csvs
       [Upload file_name (Cells fieldnames :: pre)]).2 = [].
Proof.
  unfold read_rows_from_multiple_csvs. cbn [foldl lines name dict_reader].
  destruct (reader_rows_bad_line fieldnames pre post Hpre) as [-> H2].
  destruct (reader_rows fieldnames pre) as [rows failed].
  cbn [fst snd] in *. by subst failed.
Qed.

Lemma reader_keeps_rows_before_bad_line_witness :
  let pre := [Cells ["Alice"; "Hi"; "Hello"]] in
  (BadLine ∉ pre)
  ∧ read_rows_from_multiple_csvs
      [Upload "mail.csv"
         (Cells mail_header :: pre ++ BadLine :: [Cells ["Bob"; "X"; "Y"]])]
    = ([dict_row mail_header ["Alice"; "Hi"; "Hello"]],
       [ErrorReadingFile "mail.csv"]).
Proof.
  intros pre.
  assert (H : BadLine ∉ pre).
  { intros Hin. apply list_elem_of_singleton in Hin. discriminate. }
  split; [exact H|].
  rewrite (proj1 (reader_keeps_rows_before_bad_line "mail.csv" mail_header
                    pre [Cells ["Bob"; "X"; "Y"]] H)).
  reflexivity.
Defined.

(** X16. The builder either finds no [None] subject or body in the
    selected rows, writes all their records and returns their number; or
    it raises [AttributeError] at the first selected row that has one,
    and the file then holds the records of the selected rows before that
    row only, whatever it held before. *)
Theorem build_returns_or_leaves_partial_file
    (all_rows : list row) (selected_senders : list string)
    (output_jsonl : string) (fs : files) :
  (Forall cells_ok (selected_rows selected_senders all_rows)
   ∧ build_jsonl_for_senders all_rows selected_senders output_jsonl fs
     = (<[output_jsonl :=
            lines_text (map rec_fields
                          (selected_rows selected_senders all_rows))]> fs,
        Returned (length (selected_rows selected_senders all_rows))))
  ∨ (∃ pre r post,
       selected_rows selected_senders all_rows = pre ++ r :: post
       ∧ Forall cells_ok pre ∧ ¬ cells_ok r
       ∧ build_jsonl_for_senders all_rows selected_senders output_jsonl fs
         = (<[output_jsonl := lines_text (map rec_fields pre)]> fs,
            Raised AttributeError)).
Proof.
  unfold build_jsonl_for_senders, selected_rows.
  destruct (write_rows_split (map PyStr.lower selected_senders) all_rows "" 0)
    as [[Hall ->]|(pre & r & post & Hf & Hpre & Hbad & ->)].
  - left. by split.
  - right. by exists pre, r, post.
Qed.

(** X17. A row whose sender is missing, [None] or blank is selected
    exactly when the empty string is among the selected senders; no
    sender name selects it. *)
Theorem rows_without_sender_need_empty_selection
    (selected_senders : list string) (r : row)
    (Hblank : PyStr.strip (get_or_empty r "Parsed From") = "") :
  sender_selected (map PyStr.lower selected_senders) r = true
  ↔ "" ∈ selected_senders.
Proof.
  rewrite sender_selected_iff, Hblank. split.
  - intros (s & Hs & Heq). cbn [PyStr.lower] in Heq. symmetry in Heq.
    apply (proj1 (lower_empty s)) in Heq. by rewrite Heq in Hs.
  - intros H. by exists "".
Qed.

Lemma rows_without_sender_need_empty_selection_witness :
  let r := dict_row mail_header ["  "; "Hi"] in
  PyStr.strip (get_or_empty r "Parsed From") = ""
  ∧ (sender_selected (map PyStr.lower ["Alice"; ""]) r = true
     ↔ "" ∈ ["Alice"; ""]).
Proof.
  intros r.
  assert (H : PyStr.strip (get_or_empty r "Parsed From") = "")
    by reflexivity.
  split; [exact H|].
  apply (rows_without_sender_need_empty_selection ["Alice"; ""] r H).
Defined.

(** X18. When the selection is not empty but matches no row, the click
    still replaces the output file by an empty one, reports that no rows
    were found, and leaves the file name recorded in the session as it
    was. *)
Theorem generate_without_match_empties_file
    (all_rows : list row) (selected_senders : list string) (fs : files)
    (jsonl_file : option string)
    (Hsel : selected_senders ≠ [])
    (Hnone : selected_rows selected_senders all_rows = []) :
  generate_click all_rows selected_senders fs jsonl_file
  = (<[jsonl_file_name := ""]> fs, Returned (jsonl_file, NoRowsFound)).
Proof.
  unfold generate_click. destruct selected_senders as [|s sel]; [done|].
  destruct (BuilderClaims.build_spec all_rows (s :: sel) jsonl_file_name fs)
    as (built & Hp & _ & Hf & Hres).
  rewrite Hnone in Hp. apply prefix_nil_inv in Hp. subst built.
  destruct (build_jsonl_for_senders _ _ _ _) as [fs' [n|e]];
    cbn [fst snd] in *.
  - destruct Hres as [_ ->]. by rewrite Hf.
  - destruct Hres as (_ & r & Hin & _). rewrite Hnone in Hin.
    by apply not_elem_of_nil in Hin.
Qed.

Lemma generate_without_match_empties_file_witness :
  let rows := [dict_row mail_header ["Alice"; "Hi"; "Hello"]] in
  let fs : files := {[jsonl_file_name := "old"]} in
  ["Bob"] ≠ [] ∧ selected_rows ["Bob"] rows = []
  ∧ (generate_click rows ["Bob"] fs (Some jsonl_file_name)).1
      !! jsonl_file_name = Some "".
Proof.
  intros rows fs.
  assert (H1 : ["Bob"] ≠ ([] : list string)) by discriminate.
  assert (H2 : selected_rows ["Bob"] rows = []) by (vm_compute; reflexivity).
  split; [exact H1|]. split; [exact H2|].
  rewrite (generate_without_match_empties_file rows ["Bob"] fs
             (Some jsonl_file_name) H1 H2).
  apply lookup_insert_eq.
Defined.

End BuilderExtras.

(* ===================================================================== *)
(** * 16. Senders and choices beyond the specification                    *)
(* ===================================================================== *)

Module SendersOpsFacts.
Import Builder BuilderFacts BuilderOps Senders SendersFacts PyStrFacts.

(** Membership in the set that lines 391-395 build. *)
Lemma senders_fold_elem (all_rows : list row) (acc : gset string) x :
  x ∈ foldl (λ (senders : gset string) r,
               let frm := PyStr.strip (get_or_empty r "Parsed From") in
               if PyStr.truthy frm then senders ∪ {[frm]} else senders)
            acc all_rows
  ↔ x ∈ acc
    ∨ (x ≠ "" ∧ ∃ r, r ∈ all_rows
                     ∧ PyStr.strip (get_or_empty r "Parsed From") = x).
Proof.
  revert acc. induction all_rows as [|r rows IH]; intros acc; cbn [foldl].
  - split; [by left|]. intros [?|(_ & r & Hr & _)]; [done|].
    by apply not_elem_of_nil in Hr.
  - rewrite IH. clear IH.
    destruct (PyStr.truthy _) eqn:E.
    + apply truthy_true in E. rewrite elem_of_union, elem_of_singleton.
      split.
      * intros [[? | ->] | (Hx & r' & Hr' & Heq)].
        -- by left.
        -- right. split; [done|]. exists r. split; [by left | done].
        -- right. split; [done|]. exists r'. split; [by right | done].
      * intros [?|(Hx & r' & Hr' & Heq)]; [by left; left|].
        apply elem_of_cons in Hr' as [-> | Hr'].
        -- left. by right.
        -- right. split; [done|]. by exists r'.
    + apply truthy_false in E. split.
      * intros [?|(Hx & r' & Hr' & Heq)]; [by left|].
        right. split; [done|]. exists r'. split; [by right | done].
      * intros [?|(Hx & r' & Hr' & Heq)]; [by left|].
        apply elem_of_cons in Hr' as [-> | Hr'].
        -- congruence.
        -- right. split; [done|]. by exists r'.
Qed.

Lemma distinct_senders_elem (all_rows : list row) x :
  x ∈ distinct_senders all_rows
  ↔ x ≠ "" ∧ ∃ r, r ∈ all_rows
                  ∧ PyStr.strip (get_or_empty r "Parsed From") = x.
Proof.
  unfold distinct_senders.
  rewrite sorted_perm, elem_of_elements, senders_fold_elem.
  split; [|by right]. intros [H|H]; [|done].
  by apply not_elem_of_empty in H.
Qed.

Lemma le_total : Total PyStr.le.
Proof. intros a b. apply String.leb_total. Qed.

Lemma lstrip_head (s : string) c r :
  PyStr.lstrip s = String c r → PyStr.is_space c = false.
Proof.
  induction s as [|a s IH]; cbn [PyStr.lstrip]; [done|].
  destruct (PyStr.is_space a) eqn:E; [done|]. by intros [= <- <-].
Qed.

Lemma strip_empty_iff (s : string) :
  PyStr.strip s = "" ↔ PyStr.lstrip s = "".
Proof.
  unfold PyStr.strip. destruct (PyStr.lstrip s) as [|c r] eqn:E; [done|].
  apply lstrip_head in E. cbn [PyStr.rstrip]. rewrite E.
  by destruct (PyStr.rstrip r).
Qed.

Lemma split_blank (s : string) :
  PyStr.lstrip s = "" → PyStr.split_from "" s = [].
Proof.
  induction s as [|c r IH]; cbn [PyStr.lstrip PyStr.split_from]; [done|].
  destruct (PyStr.is_space c); [|done]. by cbn.
Qed.

Lemma split_lstrip (s : string) :
  PyStr.split_from "" s = PyStr.split_from "" (PyStr.lstrip s).
Proof.
  induction s as [|c r IH]; [done|].
  cbn [PyStr.lstrip]. destruct (PyStr.is_space c) eqn:E; [|done].
  cbn [PyStr.split_from]. by rewrite E.
Qed.

(** The first token read from a started token is a prefix of the text,
    and ends at its end or before a blank. *)
Lemma split_from_prefix (s tok : string) :
  tok ≠ "" →
  ∃ fn more rest,
    PyStr.split_from tok s = fn :: more
    ∧ tok +:+ s = fn +:+ rest
    ∧ (rest = "" ∨ ∃ c r, rest = String c r ∧ PyStr.is_space c = true).
Proof.
  revert tok. induction s as [|c r IH]; intros tok Hne;
    cbn [PyStr.split_from].
  - rewrite (proj2 (String.eqb_neq _ _) Hne).
    exists tok, [], "". split; [done|]. split; [done|]. by left.
  - destruct (PyStr.is_space c) eqn:E.
    + rewrite (proj2 (String.eqb_neq _ _) Hne).
      eexists tok, _, (String c r). split; [done|]. split; [done|].
      right. by exists c, r.
    + destruct (IH (tok +:+ String c "")) as (fn & more & rest & H1 & H2 & H3).
      { by destruct tok. }
      exists fn, more, rest. split; [done|]. split; [|done].
      rewrite <- H2. by rewrite app_assoc.
Qed.

(** What one displayed choice expands to. *)
Lemma expand_step_acc grouped (acc : list string) d :
  expand_step grouped (Returned acc) d
  = let! members := expand_step grouped (Returned []) d in
    Returned (acc ++ members).
Proof.
  unfold expand_step. cbn [obind].
  destruct (PyStr.endswith d all_variations); [|done].
  destruct (PyStr.split d) as [|fn more]; [done|].
  by destruct (grouped !! fn).
Qed.

Lemma expand_fold grouped (ds : list string) (mss : list (list string)) acc :
  Forall2 (λ d ms, expand_step grouped (Returned []) d = Returned ms) ds mss →
  foldl (expand_step grouped) (Returned acc) ds = Returned (acc ++ concat mss).
Proof.
  intros H. revert acc.
  induction H as [|d ms ds mss Hd _ IH]; intros acc; cbn [foldl concat].
  - by rewrite app_nil_r.
  - rewrite expand_step_acc, Hd. cbn [obind]. rewrite IH.
    by rewrite <- List.app_assoc.
Qed.

(** The choice shown for a group expands to the members of the group. *)
Lemma choice_expands (senders : list string) grouped fn members d :
  Forall trimmed_nonempty senders →
  (∀ fn, grouped !! fn = group_of fn senders) →
  grouped !! fn = Some members →
  display_choice fn members = Returned d →
  expand_step grouped (Returned []) d = Returned members.
Proof.
  intros Htrim Hlook Hfn Hd.
  destruct (group_of_Some fn senders members) as [Hmem Hne];
    [by rewrite <- Hlook|].
  assert (Hin : ∀ s, s ∈ members → s ∈ senders ∧ first_token s = fn).
  { intros s. rewrite Hmem, members_of_elem. tauto. }
  unfold display_choice in Hd. unfold expand_step. cbn [obind].
  destruct (1 <? length members)%nat eqn:Hlen.
  - assert (d = fn +:+ " " +:+ all_variations) as -> by congruence.
    rewrite endswith_all_variations.
    destruct members as [|s ms]; [done|].
    destruct (Hin s) as [Hs Hfirst]; [by left|].
    eapply Forall_forall in Htrim; [|exact Hs].
    destruct (trimmed_first_name s Htrim) as (_ & _ & Hfn1 & Hfn2).
    rewrite Hfirst in Hfn1, Hfn2.
    destruct (split_all_variations fn Hfn1 Hfn2) as [more ->].
    by rewrite Hfn.
  - destruct members as [|s ms]; [done|]. injection Hd as <-.
    destruct ms as [|s' ms]; [|done].
    destruct (Hin s) as [Hs Hfirst]; [by left|].
    eapply Forall_forall in Htrim; [|exact Hs].
    destruct (trimmed_first_name s Htrim) as (_ & [more Hsplit] & _).
    destruct (PyStr.endswith s all_variations); [|done].
    by rewrite Hsplit, Hfirst, Hfn.
Qed.

Lemma elem_of_concat {A} (x : A) (ls : list (list A)) :
  x ∈ concat ls ↔ ∃ l, l ∈ ls ∧ x ∈ l.
Proof.
  induction ls as [|l ls IH]; cbn [concat].
  - split; [by intros ?%not_elem_of_nil|].
    by intros (l & ?%not_elem_of_nil & _).
  - rewrite elem_of_app, IH. split.
    + intros [H|(l' & Hl' & Hx)].
      * exists l. split; [by left | done].
      * exists l'. split; [by right | done].
    + intros (l' & Hl' & Hx). apply elem_of_cons in Hl' as [-> | Hl'].
      * by left.
      * right. by exists l'.
Qed.

(** Groups keyed by distinct first names share no sender. *)
Lemma NoDup_concat_groups (items : list (string * list string)) :
  NoDup items.*1 →
  Forall (λ kv, NoDup kv.2 ∧ ∀ s, s ∈ kv.2 → first_token s = kv.1) items →
  NoDup (concat items.*2).
Proof.
  induction items as [|[fn ms] items IH]; intros Hk Hall; [constructor|].
  cbn [fmap list_fmap concat fst snd] in *.
  apply NoDup_cons in Hk as [Hfn Hk].
  apply Forall_cons in Hall as [[Hms Hkey] Hall]. cbn [fst snd] in *.
  apply NoDup_app. split; [done|]. split; [|by apply IH].
  intros s Hs Hin. apply elem_of_concat in Hin as (ms' & Hms' & Hs').
  apply list_elem_of_fmap in Hms' as ([fn' ms''] & -> & Hitem).
  cbn [snd] in Hs'. eapply Forall_forall in Hall; [|exact Hitem].
  destruct Hall as [_ Hkey']. cbn [fst snd] in Hkey'.
  apply Hfn. apply list_elem_of_fmap. exists (fn', ms'').
  split; [|done]. cbn [fst]. by rewrite <- (Hkey s Hs), (Hkey' s Hs').
Qed.

Lemma Forall2_elem_fmap {A B C} (R : A → B → Prop) (Q : B → C → Prop)
    (f : A → C) (l : list A) (k : list B) :
  Forall2 R l k → (∀ a b, a ∈ l → R a b → Q b (f a)) →
  Forall2 Q k (f <$> l).
Proof.
  induction 1 as [|a b l k Hab _ IH]; intros H; cbn; constructor.
  - apply H; [by left | done].
  - apply IH. intros a' b' Ha'. apply H. by right.
Qed.

End SendersOpsFacts.

Module SendersExtras.
Import Builder BuilderFacts BuilderOps Senders SendersFacts SendersOpsFacts
       PyStrFacts.

(** X19. The senders offered for selection are exactly the non-empty
    trimmed values of the sender column, each once, in ascending order;
    rows whose sender is missing, [None] or blank offer nothing. *)
Theorem distinct_senders_characterised (all_rows : list row) :
  (∀ x, x ∈ distinct_senders all_rows
        ↔ x ≠ "" ∧ ∃ r, r ∈ all_rows
                        ∧ PyStr.strip (get_or_empty r "Parsed From") = x)
  ∧ NoDup (distinct_senders all_rows)
  ∧ Sorted PyStr.le (distinct_senders all_rows).
Proof.
  split; [apply distinct_senders_elem|]. split.
  - unfold distinct_senders. rewrite sorted_perm. apply NoDup_elements.
  - unfold distinct_senders, PyStr.sorted.
    apply Sorted_merge_sort, le_total.
Qed.

(** X20. Selecting any senders the form offers, at least one, always
    finds rows: when no selected row has a [None] subject or body, the
    click writes one record per selected row, at least one, records the
    file name in the session and reports the count. *)
Theorem offered_senders_always_match
    (all_rows : list row) (selected_senders : list string) (fs : files)
    (jsonl_file : option string)
    (Hsel : selected_senders ≠ [])
    (Hoffered : ∀ s, s ∈ selected_senders → s ∈ distinct_senders all_rows)
    (Hcells : Forall cells_ok (selected_rows selected_senders all_rows)) :
  let count := length (selected_rows selected_senders all_rows) in
  0 < count
  ∧ generate_click all_rows selected_senders fs jsonl_file
    = (<[jsonl_file_name :=
           lines_text (map rec_fields
                         (selected_rows selected_senders all_rows))]> fs,
       Returned (Some jsonl_file_name, Created count)).
Proof.
  intros count. subst count.
  assert (Hpos : 0 < length (selected_rows selected_senders all_rows)).
  { destruct selected_senders as [|s sel]; [done|].
    destruct (proj1 (distinct_senders_elem all_rows s)) as (_ & r & Hr & Heq).
    { apply Hoffered. by left. }
    assert (Hin : r ∈ selected_rows (s :: sel) all_rows).
    { apply BuilderClaims.selected_rows_elem. split; [done|].
      exists s. split; [by left | by rewrite Heq]. }
    destruct (selected_rows (s :: sel) all_rows); [|cbn; lia].
    by apply not_elem_of_nil in Hin. }
  split; [done|]. unfold generate_click.
  destruct selected_senders as [|s sel]; [done|].
  unfold build_jsonl_for_senders.
  rewrite write_rows_total by exact Hcells. cbn [obind Nat.add].
  fold (selected_rows (s :: sel) all_rows).
  by rewrite (proj2 (Nat.ltb_lt _ _) Hpos).
Qed.

Lemma offered_senders_always_match_witness :
  let rows := [dict_row mail_header ["Alice "; "Hi"; "Hello there"];
               dict_row mail_header ["Bob"]] in
  ["Alice"] ≠ []
  ∧ (∀ s, s ∈ ["Alice"] → s ∈ distinct_senders rows)
  ∧ Forall cells_ok (selected_rows ["Alice"] rows)
  ∧ (generate_click rows ["Alice"] ∅ None).2
    = Returned (Some jsonl_file_name, Created 1).
Proof.
  intros rows.
  assert (H1 : ["Alice"] ≠ ([] : list string)) by discriminate.
  assert (H2 : ∀ s, s ∈ ["Alice"] → s ∈ distinct_senders rows).
  { intros s ->%list_elem_of_singleton. vm_compute. by left. }
  assert (H3 : Forall cells_ok (selected_rows ["Alice"] rows)).
  { apply Forall_forall. intros r Hr. vm_compute in Hr.
    apply list_elem_of_In in Hr. destruct Hr as [<-|[]].
    split; intros Hn; vm_compute in Hn; discriminate. }
  split; [exact H1|]. split; [exact H2|]. split; [exact H3|].
  rewrite (proj2 (offered_senders_always_match rows ["Alice"] ∅ None
                    H1 H2 H3)).
  vm_compute. reflexivity.
Defined.

(** X21. [get_first_name] returns [""] for the empty string, raises
    [IndexError] for a non-empty string of whitespace only, and otherwise
    returns the leading token of the string without its leading
    whitespace: a non-empty word without whitespace that ends where the
    string ends or a whitespace character follows. *)
Theorem get_first_name_cases (full_name : string) :
  (full_name = "" → get_first_name full_name = Returned "")
  ∧ (full_name ≠ "" → PyStr.strip full_name = "" →
     get_first_name full_name = Raised IndexError)
  ∧ (PyStr.strip full_name ≠ "" →
     ∃ first rest,
       get_first_name full_name = Returned first
       ∧ first ≠ "" ∧ PyStr.no_space first = true
       ∧ PyStr.lstrip full_name = first +:+ rest
       ∧ (rest = "" ∨ ∃ c r, rest = String c r ∧ PyStr.is_space c = true)).
Proof.
  split; [by intros ->|]. split.
  - intros Hne Hblank. unfold get_first_name, PyStr.split.
    rewrite (proj2 (truthy_true _) Hne).
    by rewrite split_blank by (by apply strip_empty_iff).
  - intros Hstrip.
    assert (Hl : PyStr.lstrip full_name ≠ "").
    { intros H. by apply strip_empty_iff in H. }
    assert (Hne : full_name ≠ "") by (by intros ->).
    unfold get_first_name, PyStr.split.
    rewrite (proj2 (truthy_true _) Hne), split_lstrip.
    destruct (PyStr.lstrip full_name) as [|c r] eqn:E; [done|].
    pose proof (lstrip_head _ _ _ E) as Hc.
    cbn [PyStr.split_from]. rewrite Hc. cbn [String.append].
    destruct (split_from_prefix r (String c "")) as
      (fn & more & rest & H1 & H2 & H3); [done|].
    destruct (split_from_started r (String c ""))
      as (fn' & more' & H1' & Hfn & Hns); [done|by cbn; rewrite Hc|].
    rewrite H1 in H1'. injection H1' as <- <-.
    rewrite H1. by exists fn, rest.
Qed.

Lemma get_first_name_cases_witness :
  "  " ≠ "" ∧ PyStr.strip "  " = ""
  ∧ get_first_name "  " = Raised IndexError
  ∧ get_first_name " Alice  Smith" = Returned "Alice".
Proof.
  assert (H1 : "  " ≠ "") by discriminate.
  assert (H2 : PyStr.strip "  " = "") by reflexivity.
  split; [exact H1|]. split; [exact H2|].
  split; [apply (get_first_name_cases "  "); assumption|].
  vm_compute. reflexivity.
Defined.

(** X22. For distinct, trimmed, non-empty senders, expanding any
    selection of the displayed choices never raises and yields senders
    of the list only; expanding all displayed choices yields every
    sender exactly once. *)
Theorem choices_expand_to_senders (senders : list string)
    (Hdistinct : NoDup senders)
    (Htrim : Forall trimmed_nonempty senders) :
  ∃ grouped disp,
    group_senders senders = Returned grouped
    ∧ display_senders grouped = Returned disp
    ∧ (∀ selected_disp,
         (∀ d, d ∈ selected_disp → d ∈ disp) →
         ∃ selected_senders,
           expand_selection grouped selected_disp = Returned selected_senders
           ∧ ∀ s, s ∈ selected_senders → s ∈ senders)
    ∧ ∃ all_senders,
        expand_selection grouped disp = Returned all_senders
        ∧ all_senders ≡ₚ senders.
Proof.
  destruct (group_senders_spec senders Htrim) as (grouped & Hg & Hlook).
  assert (Hgroup : ∀ fn members, grouped !! fn = Some members →
            members = members_of fn senders ∧ members ≠ []).
  { intros fn members H. apply group_of_Some. by rewrite <- Hlook. }
  destruct (display_fold (map_to_list grouped)) as (disp & Hd & Hall).
  { apply Forall_forall. intros [fn ms] Hin.
    apply elem_of_map_to_list in Hin. by apply (Hgroup fn ms). }
  assert (Hexp : Forall2 (λ d ms, expand_step grouped (Returned []) d
                                  = Returned ms)
                         disp (map_to_list grouped).*2).
  { eapply Forall2_elem_fmap; [exact Hall|].
    intros [fn ms] d Hin Hdc. cbn [fst snd] in *.
    apply elem_of_map_to_list in Hin.
    by eapply choice_expands. }
  assert (Hsub : ∀ fn ms s, grouped !! fn = Some ms → s ∈ ms → s ∈ senders).
  { intros fn ms s Hfn Hs. destruct (Hgroup fn ms Hfn) as [-> _].
    by apply members_of_elem in Hs as [_ ?]. }
  exists grouped, disp. split; [done|]. split; [done|]. split.
  - intros sel Hsel.
    assert (Hone : ∀ d, d ∈ disp →
              ∃ ms, expand_step grouped (Returned []) d = Returned ms
                    ∧ ∀ s, s ∈ ms → s ∈ senders).
    { intros d Hdin.
      destruct (SendersClaims.Forall2_elem_l _ _ _ d Hexp Hdin)
        as (ms & Hms & Hstep).
      exists ms. split; [done|]. intros s Hs.
      apply list_elem_of_fmap in Hms as ([fn ms'] & -> & Hitem).
      apply elem_of_map_to_list in Hitem. by eapply Hsub. }
    assert (Hlist : ∃ mss,
              Forall2 (λ d ms, expand_step grouped (Returned []) d
                               = Returned ms) sel mss
              ∧ ∀ s, s ∈ concat mss → s ∈ senders).
    { clear -Hsel Hone. induction sel as [|d sel IH].
      - exists []. split; [constructor|]. by intros s ?%not_elem_of_nil.
      - destruct (Hone d) as (ms & Hms & Hin); [apply Hsel; by left|].
        destruct IH as (mss & Hmss & Hins).
        { intros d' Hd'. apply Hsel. by right. }
        exists (ms :: mss). split; [by constructor|].
        intros s [?|?]%elem_of_app; eauto. }
    destruct Hlist as (mss & Hmss & Hins).
    exists (concat mss). split; [|done].
    unfold expand_selection. by rewrite (expand_fold _ _ mss).
  - exists (concat (map_to_list grouped).*2). split.
    { unfold expand_selection. by rewrite (expand_fold _ _ _ [] Hexp). }
    apply NoDup_Permutation; [|done|].
    + apply NoDup_concat_groups; [apply NoDup_fst_map_to_list|].
      apply Forall_forall. intros [fn ms] Hin. cbn [fst snd].
      apply elem_of_map_to_list in Hin.
      destruct (Hgroup fn ms Hin) as [-> _]. split.
      * by apply NoDup_filter.
      * intros s Hs. by apply members_of_elem in Hs as [? _].
    + intros s. rewrite elem_of_concat. split.
      * intros (ms & Hms & Hs).
        apply list_elem_of_fmap in Hms as ([fn ms'] & -> & Hitem).
        apply elem_of_map_to_list in Hitem. by eapply Hsub.
      * intros Hs. pose proof (Hlook (first_token s)) as Hl.
        unfold group_of in Hl.
        assert (Hin : s ∈ members_of (first_token s) senders)
          by (by apply members_of_elem).
        destruct (members_of (first_token s) senders) as [|m ms] eqn:E.
        { by apply not_elem_of_nil in Hin. }
        exists (m :: ms). split; [|done].
        apply list_elem_of_fmap. exists (first_token s, m :: ms).
        split; [done|]. by apply elem_of_map_to_list.
Qed.

Lemma choices_expand_to_senders_witness :
  let senders := ["Alice Smith"; "Alice Jones"; "Bob Lee"] in
  NoDup senders
  ∧ Forall trimmed_nonempty senders
  ∧ ∃ grouped disp all_senders,
      group_senders senders = Returned grouped
      ∧ display_senders grouped = Returned disp
      ∧ expand_selection grouped disp = Returned all_senders
      ∧ all_senders ≡ₚ senders.
Proof.
  intros senders.
  assert (Hd : NoDup senders).
  { apply (bool_decide_unpack (NoDup senders)). vm_compute. exact I. }
  assert (Ht : Forall trimmed_nonempty senders).
  { repeat constructor; solve [reflexivity | discriminate]. }
  split; [exact Hd|]. split; [exact Ht|].
  destruct (choices_expand_to_senders senders Hd Ht)
    as (grouped & disp & Hg & Hdisp & _ & all_senders & Hall & Hperm).
  exists grouped, disp, all_senders.
  split; [exact Hg|]. split; [exact Hdisp|]. split; [exact Hall|exact Hperm].
Defined.

End SendersExtras.

(* ===================================================================== *)
(** * 17. The JSONL text determines the records                           *)
(* ===================================================================== *)

Module JsonlFacts.
Import Builder BuilderFacts BuilderOps PyStrFacts.










End JsonlFacts.

Module JsonlExtras.
Import Builder BuilderFacts BuilderOps JsonlFacts.



End JsonlExtras.

(* ===================================================================== *)
(** * 18. From the admin's writes to the public list                      *)
(* ===================================================================== *)

Module PublicExtras.
Import Registry RegistryFacts RegistryOps RegistryOpsFacts PublicListFacts.

Lemma entry_public_id_mk_entry id public :
  entry_public_id (mk_entry id public)
  = if public then Some (JStr id) else None.
Proof.
  unfold entry_public_id, mk_entry.
  rewrite lookup_insert_ne, !lookup_insert_eq by done. cbn.
  by destruct public.
Qed.

(** The public list of a file that the admin application saved. *)
Lemma public_models_of_saved (m : models) :
  map_Forall (λ _ e, normalized e) m →
  ∃ listed,
    public_models (JObj <$> m) = Returned listed
    ∧ ∀ alias, listed !! alias = m !! alias ≫= entry_public_id.
Proof.
  intros Hn.
  destruct (public_models_spec (JObj <$> m))
    as [[(a & v & Hv & Hbad) _]|[_ ->]].
  - exfalso. rewrite lookup_fmap in Hv.
    destruct (m !! a) as [e|] eqn:E; [|done]. cbn in Hv.
    injection Hv as <-. destruct (Hn a e E) as [[i Hi] _].
    cbn in Hbad. destruct Hbad as [_ Hnone]. congruence.
  - eexists. split; [done|]. intros alias.
    rewrite lookup_omap, lookup_fmap. by destruct (m !! alias).
Qed.

(** X24. After a valid upsert with a writable file, the public
    application, which reads the file only, lists the alias with its id
    when the entry was saved as public and does not list it otherwise;
    its listing of the other aliases is that of the entries the store
    held. If the entry is public, the alias is among the choices the
    public application offers. *)
Theorem upsert_shows_in_public_list
    (alias_in id_in : string) (public_in : bool) (p : page)
    (Halias : PyStr.strip alias_in ≠ "") (Hid : PyStr.strip id_in ≠ "")
    (Hw : writable (store p) = true) :
  let p' := add_update_model alias_in id_in public_in p in
  ∃ listed,
    public_models (load_saved_models_public (store p')).1 = Returned listed
    ∧ listed !! alias_in = (if public_in then Some (JStr id_in) else None)
    ∧ (∀ alias, alias ≠ alias_in →
         listed !! alias
         = (load_saved_models (store p)).1 !! alias ≫= entry_public_id)
    ∧ (public_in = true →
       ∃ choices, public_choices listed = Some choices
                  ∧ alias_in ∈ choices).
Proof.
  intros p'. subst p'. rewrite add_update_valid by done. cbn [store].
  unfold save_saved_models. rewrite Hw.
  cbn [fst load_saved_models_public content].
  destruct (public_models_of_saved
              (<[alias_in := mk_entry id_in public_in]>
                 (load_saved_models (store p)).1))
    as (listed & Hl & Hlook).
  { apply insert_normalized; [apply mk_entry_normalized|].
    apply loaded_all_normalized. }
  exists listed. split; [done|].
  assert (Hat : listed !! alias_in
                = if public_in then Some (JStr id_in) else None).
  { rewrite Hlook, lookup_insert_eq. cbn [mbind option_bind].
    apply entry_public_id_mk_entry. }
  split; [done|]. split.
  - intros alias Hne. by rewrite Hlook, lookup_insert_ne.
  - intros ->. unfold public_choices.
    rewrite bool_decide_eq_false_2.
    + eexists. split; [done|].
      rewrite PyStrFacts.sorted_perm, elem_of_elements.
      apply elem_of_dom. by eexists.
    + intros H. rewrite H, lookup_empty in Hat. done.
Qed.

Lemma upsert_shows_in_public_list_witness :
  let p := start None fresh_disk in
  PyStr.strip "mine" ≠ "" ∧ PyStr.strip "ft:x" ≠ ""
  ∧ writable (store p) = true
  ∧ ∃ listed,
      public_models
        (load_saved_models_public
           (store (add_update_model "mine" "ft:x" false p))).1
      = Returned listed
      ∧ listed !! "mine" = None.
Proof.
  intros p.
  assert (Ha : PyStr.strip "mine" ≠ "") by (vm_compute; discriminate).
  assert (Hi : PyStr.strip "ft:x" ≠ "") by (vm_compute; discriminate).
  split; [exact Ha|]. split; [exact Hi|]. split; [reflexivity|].
  destruct (upsert_shows_in_public_list "mine" "ft:x" false p Ha Hi eq_refl)
    as (listed & Hl & Hat & _).
  exists listed. split; [exact Hl | exact Hat].
Defined.

(** A witness of [monitor_registers_model] on a fresh installation. *)
Lemma monitor_registers_model_witness :
  let p := start None fresh_disk in
  "ft:new" ≠ "" ∧ writable (store p) = true
  ∧ (load_saved_models
       (store (monitor_job (Succeeded (Some "ft:new")) p).1)).1
    = {["ft:new-4" := mk_entry "ft:new" true]}.
Proof.
  intros p.
  assert (Hm : "ft:new" ≠ "") by discriminate.
  split; [exact Hm|]. split; [reflexivity|].
  destruct (proj1 (SessionExtras.monitor_registers_model
                     (Succeeded (Some "ft:new")) p) "ft:new" eq_refl Hm)
    as [_ Hd].
  rewrite (Hd eq_refl). vm_compute. reflexivity.
Defined.

End PublicExtras.
